(** * FEWS NET price synchronisation: upsert, watermark and client retries

    A shallow embedding of
    - [FEWS_Price_data/database/fews_database.py] (class [FEWSDatabase]),
    - [FEWS_Price_data/sync_fews_db.py] (function [incremental_sync]),
    - [FEWS_Price_data/fewsnet_haiti_downloader.py] (class [FEWSNETClient]),
    and the properties of the synchronisation logic proved on it. *)

From Stdlib Require Import ZArith List String Ascii Bool Lia.
From stdpp Require Import base tactics option list strings gmap.

Local Open Scope string_scope.
Local Open Scope Z_scope.

(** ** Python values found in a DataFrame cell or bound to a SQL parameter *)

Module Py.

(** The scalars that [pd.DataFrame(json_data)] puts in a cell: [None],
    the float NaN of a missing entry, booleans, integers, finite floats
    ([PFloat m e] stands for [m * 2^e]) and strings. *)
Inductive pyval : Type :=
  | PNone
  | PNaN
  | PBool (b : bool)
  | PInt (z : Z)
  | PFloat (m e : Z)
  | PStr (s : string).

#[global] Instance pyval_eq_dec : EqDecision pyval.
Proof. solve_decision. Defined.

(** [bool(v)]: the truth value Python gives to [v] in an [if]. *)
Definition truthy (v : pyval) : bool :=
  match v with
  | PNone => false
  | PNaN => true
  | PBool b => b
  | PInt z => negb (z =? 0)
  | PFloat m _ => negb (m =? 0)
  | PStr s => negb (String.eqb s "")
  end.

(** [pd.isna(v)] on a scalar. *)
Definition pd_isna (v : pyval) : bool :=
  match v with
  | PNone | PNaN => true
  | _ => false
  end.

(** A row of the DataFrame as the dictionary [row.to_dict()]. *)
Abbreviation row := (gmap string pyval).

(** [row.get(k)] and [row.get(k, d)]. *)
Definition get (r : row) (k : string) : pyval := default PNone (r !! k).
Definition get_default (r : row) (k : string) (d : pyval) : pyval :=
  default d (r !! k).

End Py.

Export Py.

(** ** The DuckDB database behind [FEWSDatabase] *)

Module FEWSDatabase.

(** Modelled from the spec: [schema.sql], which declares the tables, is
    not part of the sources.  The rows of the six tables have the columns
    that the statements of [fews_database.py] read or write; the tables
    carry no constraint of their own (the upsert has no conflict
    resolution beyond its own lookup); an [id] column is filled from a
    sequence, one per table; and a column left out of an INSERT that the
    code reads elsewhere ([imported_at], [import_date]) takes the current
    timestamp. *)
Record market : Type := Market {
  m_id : Z;
  m_fews_id : pyval;
  m_fnid : pyval;
  m_name : pyval;
  m_admin_1 : pyval;
  m_admin_2 : pyval;
  m_country_code : pyval;
  m_latitude : pyval;
  m_longitude : pyval }.

Record product : Type := Product {
  p_id : Z;
  p_name : pyval;
  p_cpcv2 : pyval;
  p_cpcv2_description : pyval;
  p_product_source : pyval;
  p_is_staple_food : pyval }.

Record unit_row : Type := Unit {
  u_id : Z;
  u_name : pyval;
  u_unit_type : pyval;
  u_common_unit : pyval }.

Record data_source : Type := DataSource {
  s_id : Z;
  s_fews_id : pyval;
  s_name : pyval;
  s_document_name : pyval }.

Record price_observation : Type := PriceObservation {
  po_id : Z;
  po_market_id : Z;
  po_product_id : Z;
  po_unit_id : Z;
  po_source_id : option Z;
  po_period_date : pyval;
  po_start_date : pyval;
  po_price_type : pyval;
  po_currency : pyval;
  po_value : pyval;
  po_exchange_rate : pyval;
  po_common_unit_price : pyval;
  po_common_currency_price : pyval;
  po_collection_status : pyval;
  po_fews_dataseries_id : pyval;
  po_api_modified_at : pyval;
  po_imported_at : Z }.

Record import_entry : Type := ImportEntry {
  il_import_date : Z;
  il_records_fetched : Z;
  il_records_inserted : Z;
  il_records_updated : Z;
  il_records_skipped : Z;
  il_date_range_start : option string;
  il_date_range_end : option string;
  il_status : string;
  il_error_message : option string }.

(** The state reached through [self.con]: the tables in insertion order,
    the sequences and the clock read by CURRENT_TIMESTAMP. *)
Record database : Type := Database {
  markets : list market;
  products : list product;
  units : list unit_row;
  data_sources : list data_source;
  price_observations : list price_observation;
  import_log : list import_entry;
  seq_markets : Z;
  seq_products : Z;
  seq_units : Z;
  seq_data_sources : Z;
  seq_price_observations : Z;
  clock : Z }.

(** SQL [a = ?] in a WHERE clause: true only when neither side is NULL
    (Python [None] is bound as NULL) and the two values are the same; NaN
    is a value like another, equal to itself as DuckDB has it. *)
Definition sql_eq (a b : pyval) : bool :=
  match a, b with
  | PNone, _ | _, PNone => false
  | _, _ => bool_decide (a = b)
  end.

(** Exceptions raised inside the try block of [sync_dataframe]. *)
Inductive exn : Type :=
  | TypeError
  | ValueError.

Inductive result (A : Type) : Type :=
  | Ok (a : A)
  | Raise (e : exn).
Arguments Ok {A} a.
Arguments Raise {A} e.

(** Statements run in autocommit mode: an exception keeps the state reached
    so far. *)
Definition M (A : Type) : Type := database -> database * result A.

Definition ret {A} (a : A) : M A := fun db => (db, Ok a).
Definition raise {A} (e : exn) : M A := fun db => (db, Raise e).
Definition bind {A B} (c : M A) (k : A -> M B) : M B :=
  fun db =>
    match c db with
    | (db', Ok a) => k a db'
    | (db', Raise e) => (db', Raise e)
    end.

Notation "x <- c ;; k" := (bind c (fun x => k))
  (at level 100, c at next level, right associativity).

(** [cursor.fetchone()] of a SELECT, and [result[0]] on what it returned:
    a TypeError when no row was found. *)
Definition query {A} (q : database -> option A) : M (option A) :=
  fun db => (db, Ok (q db)).
Definition first_column {A} (r : option A) : M A :=
  match r with
  | Some a => ret a
  | None => raise TypeError
  end.
Definition execute (f : database -> database) : M () :=
  fun db => (f db, Ok ()).

(** Field updates of the state. *)
Definition with_markets (l : list market) (n : Z) (db : database) : database :=
  Database l (products db) (units db) (data_sources db)
    (price_observations db) (import_log db)
    n (seq_products db) (seq_units db) (seq_data_sources db)
    (seq_price_observations db) (clock db).
Definition with_products (l : list product) (n : Z) (db : database)
  : database :=
  Database (markets db) l (units db) (data_sources db)
    (price_observations db) (import_log db)
    (seq_markets db) n (seq_units db) (seq_data_sources db)
    (seq_price_observations db) (clock db).
Definition with_units (l : list unit_row) (n : Z) (db : database) : database :=
  Database (markets db) (products db) l (data_sources db)
    (price_observations db) (import_log db)
    (seq_markets db) (seq_products db) n (seq_data_sources db)
    (seq_price_observations db) (clock db).
Definition with_data_sources (l : list data_source) (n : Z) (db : database)
  : database :=
  Database (markets db) (products db) (units db) l
    (price_observations db) (import_log db)
    (seq_markets db) (seq_products db) (seq_units db) n
    (seq_price_observations db) (clock db).
Definition with_price_observations (l : list price_observation) (n : Z)
    (t : Z) (db : database) : database :=
  Database (markets db) (products db) (units db) (data_sources db)
    l (import_log db)
    (seq_markets db) (seq_products db) (seq_units db) (seq_data_sources db)
    n t.
Definition with_import_log (l : list import_entry) (t : Z) (db : database)
  : database :=
  Database (markets db) (products db) (units db) (data_sources db)
    (price_observations db) l
    (seq_markets db) (seq_products db) (seq_units db) (seq_data_sources db)
    (seq_price_observations db) t.

Section Operations.

(** Library functions of Python and pandas, taken as they are:
    [int(s)] on a string ([None] where it raises ValueError) and
    [pd.to_datetime(v)] ([None] where it raises). *)
Variable int_of_str : string -> option Z.
Variable pd_to_datetime : pyval -> option pyval.

(** [int(v)]: floats are truncated towards zero. *)
Definition py_int (v : pyval) : result Z :=
  match v with
  | PNone => Raise TypeError
  | PNaN => Raise ValueError
  | PBool b => Ok (if b then 1 else 0)
  | PInt z => Ok z
  | PFloat m e => Ok (if 0 <=? e then m * 2 ^ e else Z.quot m (2 ^ (- e)))
  | PStr s => match int_of_str s with
              | Some z => Ok z
              | None => Raise ValueError
              end
  end.

(** *** Dimension tables *)

(** [SELECT id FROM markets WHERE fews_id = ?], first row. *)
Definition select_market (fews_id : pyval) (db : database) : option Z :=
  m_id <$> List.find (fun m => sql_eq (m_fews_id m) fews_id) (markets db).

Definition insert_market (r : Z -> market) (db : database) : database :=
  with_markets (markets db ++ [r (seq_markets db)]) (seq_markets db + 1) db.

Definition get_or_create_market (row : row) : M Z :=
  let fews_id := get row "market_id" in
  result <- query (select_market fews_id);;
  match result with
  | Some id => ret id
  | None =>
      _ <- execute (insert_market (fun id =>
             Market id fews_id (get row "fnid") (get row "market")
               (get row "admin_1") (get row "admin_2")
               (get_default row "country_code" (PStr "HT"))
               (get row "latitude") (get row "longitude")));;
      result <- query (select_market fews_id);;
      first_column result
  end.

(** [SELECT id FROM products WHERE name = ? AND product_source = ?]. *)
Definition select_product (name source : pyval) (db : database) : option Z :=
  p_id <$> List.find (fun p => sql_eq (p_name p) name
                               && sql_eq (p_product_source p) source)
             (products db).

Definition insert_product (r : Z -> product) (db : database) : database :=
  with_products (products db ++ [r (seq_products db)]) (seq_products db + 1) db.

Definition get_or_create_product (row : row) : M Z :=
  let name := get row "product" in
  let source := get row "product_source" in
  result <- query (select_product name source);;
  match result with
  | Some id => ret id
  | None =>
      _ <- execute (insert_product (fun id =>
             Product id name (get row "cpcv2") (get row "cpcv2_description")
               source (get_default row "is_staple_food" (PBool false))));;
      result <- query (select_product name source);;
      first_column result
  end.

(** [SELECT id FROM units WHERE name = ?]. *)
Definition select_unit (name : pyval) (db : database) : option Z :=
  u_id <$> List.find (fun u => sql_eq (u_name u) name) (units db).

Definition insert_unit (r : Z -> unit_row) (db : database) : database :=
  with_units (units db ++ [r (seq_units db)]) (seq_units db + 1) db.

Definition get_or_create_unit (row : row) : M Z :=
  let name := get row "unit" in
  result <- query (select_unit name);;
  match result with
  | Some id => ret id
  | None =>
      _ <- execute (insert_unit (fun id =>
             Unit id name (get row "unit_type") (get row "common_unit")));;
      result <- query (select_unit name);;
      first_column result
  end.

(** [SELECT id FROM data_sources WHERE fews_id = ?]. *)
Definition select_source (fews_id : pyval) (db : database) : option Z :=
  s_id <$> List.find (fun s => sql_eq (s_fews_id s) fews_id) (data_sources db).

Definition insert_source (r : Z -> data_source) (db : database) : database :=
  with_data_sources (data_sources db ++ [r (seq_data_sources db)])
    (seq_data_sources db + 1) db.

Definition get_or_create_source (row : row) : M (option Z) :=
  let fews_id := get row "datasourceorganization" in
  if pd_isna fews_id then ret None
  else
    match py_int fews_id with
    | Raise e => raise e
    | Ok n =>
        let fews_id := PInt n in
        result <- query (select_source fews_id);;
        match result with
        | Some id => ret (Some id)
        | None =>
            _ <- execute (insert_source (fun id =>
                   DataSource id fews_id (get row "source_organization")
                     (get row "source_document")));;
            result <- query (select_source fews_id);;
            id <- first_column result;;
            ret (Some id)
        end
    end.

(** *** The fact table *)

(** The WHERE clause of the lookup in [upsert_price_observation]. *)
Definition po_matches (market_id product_id unit_id : Z)
    (period_date price_type : pyval) (r : price_observation) : bool :=
  (po_market_id r =? market_id) && (po_product_id r =? product_id)
  && (po_unit_id r =? unit_id)
  && sql_eq (po_period_date r) period_date
  && sql_eq (po_price_type r) price_type.

(** The natural key of a stored observation. *)
Definition natural_key (r : price_observation) : Z * Z * Z * pyval * pyval :=
  (po_market_id r, po_product_id r, po_unit_id r,
   po_period_date r, po_price_type r).

Definition select_price_observation (market_id product_id unit_id : Z)
    (period_date price_type : pyval) (db : database) : option Z :=
  po_id <$> List.find (po_matches market_id product_id unit_id
                         period_date price_type)
              (price_observations db).

(** The parsed [modified] timestamp of a row. *)
Definition parse_modified (row : row) : pyval :=
  let api_modified := get row "modified" in
  if truthy api_modified && negb (pd_isna api_modified) then
    match pd_to_datetime api_modified with
    | Some t => t
    | None => PNone
    end
  else PNone.

(** [UPDATE price_observations SET ... WHERE id = ?] on one row. *)
Definition updated_observation (row : row) (api_modified : pyval) (now : Z)
    (r : price_observation) : price_observation :=
  PriceObservation (po_id r) (po_market_id r) (po_product_id r) (po_unit_id r)
    (po_source_id r) (po_period_date r) (po_start_date r) (po_price_type r)
    (po_currency r)
    (get row "value") (get row "exchange_rate") (get row "common_unit_price")
    (get row "common_currency_price") (get row "collection_status")
    (po_fews_dataseries_id r) api_modified now.

Definition update_price_observation (row : row) (api_modified : pyval)
    (id : Z) (db : database) : database :=
  with_price_observations
    (map (fun r => if po_id r =? id
                   then updated_observation row api_modified (clock db) r
                   else r)
       (price_observations db))
    (seq_price_observations db) (clock db + 1) db.

(** The row written by [INSERT INTO price_observations]. *)
Definition new_observation (row : row) (market_id product_id unit_id : Z)
    (source_id : option Z) (period_date price_type api_modified : pyval)
    (id now : Z) : price_observation :=
  PriceObservation id market_id product_id unit_id source_id
    period_date (get row "start_date") price_type
    (get_default row "currency" (PStr "HTG"))
    (get row "value") (get row "exchange_rate") (get row "common_unit_price")
    (get row "common_currency_price") (get row "collection_status")
    (get row "dataseries") api_modified now.

Definition insert_price_observation (r : Z -> Z -> price_observation)
    (db : database) : database :=
  with_price_observations
    (price_observations db ++ [r (seq_price_observations db) (clock db)])
    (seq_price_observations db + 1) (clock db + 1) db.

Definition upsert_price_observation (row : row)
    (market_id product_id unit_id : Z) (source_id : option Z) : M bool :=
  let period_date := get row "period_date" in
  let price_type := get_default row "price_type" (PStr "Retail") in
  result <- query (select_price_observation market_id product_id unit_id
                     period_date price_type);;
  let api_modified := parse_modified row in
  match result with
  | Some id =>
      _ <- execute (update_price_observation row api_modified id);;
      ret false
  | None =>
      _ <- execute (insert_price_observation
             (new_observation row market_id product_id unit_id source_id
                period_date price_type api_modified));;
      ret true
  end.

(** The same function on a table that may refuse an INSERT.  What
    [schema.sql] declares for [price_observations] is not part of the
    sources, so it is a parameter here: [accepts rows r] tells whether the
    table holding [rows] takes the new row [r]; when it does not, the
    statement raises and the function with it, nothing being written.
    With a table that takes every row this is [upsert_price_observation]. *)
Inductive refusal : Type :=
  | ConstraintException.

Definition upsert_price_observation_on
    (accepts : list price_observation -> price_observation -> bool)
    (row : row) (market_id product_id unit_id : Z) (source_id : option Z)
    (db : database) : database * (refusal + bool) :=
  let period_date := get row "period_date" in
  let price_type := get_default row "price_type" (PStr "Retail") in
  let result := select_price_observation market_id product_id unit_id
                  period_date price_type db in
  let api_modified := parse_modified row in
  match result with
  | Some id => (update_price_observation row api_modified id db, inr false)
  | None =>
      let new := new_observation row market_id product_id unit_id source_id
                   period_date price_type api_modified in
      if accepts (price_observations db)
           (new (seq_price_observations db) (clock db))
      then (insert_price_observation new db, inr true)
      else (db, inl ConstraintException)
  end.

(** *** Synchronising a DataFrame *)

(** [stats[k] += 1]. *)
Definition incr (k : string) (stats : gmap string Z) : gmap string Z :=
  alter (fun n => n + 1) k stats.

Definition initial_stats : gmap string Z :=
  <["inserted" := 0]> (<["updated" := 0]> (<["skipped" := 0]>
    (<["errors" := 0]> ∅))).

(** The body of the try block for one row. *)
Definition sync_row (row : row) : M bool :=
  market_id <- get_or_create_market row;;
  product_id <- get_or_create_product row;;
  unit_id <- get_or_create_unit row;;
  source_id <- get_or_create_source row;;
  upsert_price_observation row market_id product_id unit_id source_id.

(** One turn of the loop, try and except together. *)
Definition sync_step (acc : database * gmap string Z) (row : row)
  : database * gmap string Z :=
  let (db, stats) := acc in
  match sync_row row db with
  | (db', Ok inserted) =>
      (db', if inserted then incr "inserted" stats else incr "updated" stats)
  | (db', Raise _) => (db', incr "errors" stats)
  end.

(** The DataFrame is the list of its rows, in [iterrows] order. *)
Definition sync_dataframe (df : list row) (db : database)
  : database * gmap string Z :=
  fold_left sync_step df (db, initial_stats).

(** *** The import log *)

Definition log_import (records_fetched : Z) (stats : gmap string Z)
    (start_date end_date : option string) (status : string)
    (error_message : option string) (db : database) : database :=
  with_import_log
    (import_log db ++
       [ImportEntry (clock db) records_fetched
          (default 0 (stats !! "inserted"))
          (default 0 (stats !! "updated"))
          (default 0 (stats !! "skipped"))
          start_date end_date status error_message])
    (clock db + 1) db.

(** [ORDER BY import_date DESC LIMIT 1]: an entry of greatest
    [import_date]; among equal dates the one met first. *)
Fixpoint latest (l : list import_entry) : option import_entry :=
  match l with
  | [] => None
  | e :: l' =>
      match latest l' with
      | Some e' => if il_import_date e <? il_import_date e'
                   then Some e' else Some e
      | None => Some e
      end
  end.

Definition is_success (e : import_entry) : bool :=
  String.eqb (il_status e) "success".

Definition get_last_sync_date (db : database) : option string :=
  match latest (List.filter is_success (import_log db)) with
  | Some e =>
      match il_date_range_end e with
      | Some d => if String.eqb d "" then None else Some d
      | None => None
      end
  | None => None
  end.

End Operations.

End FEWSDatabase.

(** ** The API client of [fewsnet_haiti_downloader.py] *)

Module FEWSNETClient.

Definition BASE_URL : string := "https://fdw.fews.net/api".
Definition MAX_RETRIES : Z := 3.

(** What [session.get], [raise_for_status] and the decoding of the body
    come to on one attempt.  [RequestFailed] is any
    [requests.exceptions.RequestException] other than a timeout (an HTTP
    error status, a refused connection, a body that is not JSON);
    [Crashed] is an exception outside that hierarchy. *)
Record response : Type := Response {
  resp_json : list row;
  resp_text : string }.

Inductive attempt_outcome : Type :=
  | Responded (r : response)
  | TimedOut
  | RequestFailed
  | Crashed.

Inductive client_exn : Type :=
  | Timeout
  | RequestException
  | OtherException.

(** What [_make_request] hands back. *)
Inductive value : Type :=
  | VJson (rows : list row)
  | VText (s : string)
  | VNone.

(** What the function does to the outside world. *)
Inductive event : Type :=
  | SessionGet (url : string) (params : row)
  | Sleep (seconds : Z).

(** The session: how many requests it has sent, and the events so far,
    oldest first. *)
Record net : Type := Net {
  calls : nat;
  events : list event }.

Definition session_get (url : string) (params : row) (w : net) : net :=
  Net (S (calls w)) (events w ++ [SessionGet url params]).
Definition time_sleep (seconds : Z) (w : net) : net :=
  Net (calls w) (events w ++ [Sleep seconds]).

(** [range(n)]. *)
Definition range (n : Z) : list Z := map Z.of_nat (seq 0 (Z.to_nat n)).

Section Client.

(** The remote side: the outcome of the n-th call of [session.get]. *)
Variable answers : nat -> attempt_outcome.

(** The for loop of [_make_request] over the attempt numbers still to run.
    Falling out of the loop returns [None]. *)
Fixpoint attempts (url : string) (params : row) (format : string)
    (todo : list Z) (w : net) : net * (client_exn + value) :=
  match todo with
  | [] => (w, inr VNone)
  | attempt :: todo' =>
      let w1 := session_get url params w in
      match answers (calls w) with
      | Responded r =>
          (w1, inr (if String.eqb format "json"
                    then VJson (resp_json r) else VText (resp_text r)))
      | TimedOut =>
          if attempt <? MAX_RETRIES - 1
          then attempts url params format todo'
                 (time_sleep ((attempt + 1) * 10) w1)
          else (w1, inl Timeout)
      | RequestFailed =>
          if attempt <? MAX_RETRIES - 1
          then attempts url params format todo'
                 (time_sleep ((attempt + 1) * 5) w1)
          else (w1, inl RequestException)
      | Crashed => (w1, inl OtherException)
      end
  end.

Definition _make_request (endpoint : string) (params : row) (format : string)
    (w : net) : net * (client_exn + value) :=
  let url := BASE_URL +:+ "/" +:+ endpoint +:+ "/" in
  let params := <["format" := PStr format]> params in
  attempts url params format (range MAX_RETRIES) w.

(** [params[k] = v] when [v] is given and true as a condition. *)
Definition set_if_str (k : string) (v : option string) (params : row) : row :=
  match v with
  | Some s => if String.eqb s "" then params else <[k := PStr s]> params
  | None => params
  end.
Definition set_if_int (k : string) (v : option Z) (params : row) : row :=
  match v with
  | Some n => if n =? 0 then params else <[k := PInt n]> params
  | None => params
  end.

(** [pd.DataFrame(json_data)], a library function: the rows of the frame
    as [iterrows] and [to_dict] give them back, or the text of the
    exception it raises; and [str(e)] of an exception of the client. *)
Variable pd_DataFrame : value -> string + list row.
Variable str_exn : client_exn -> string.

Definition get_market_prices (country_code : string)
    (start_date end_date product market : option string) (limit : option Z)
    (w : net) : net * (string + list row) :=
  let params := <["country_code" := PStr country_code]> (∅ : row) in
  let params := set_if_str "start_date" start_date params in
  let params := set_if_str "end_date" end_date params in
  let params := set_if_str "product" product params in
  let params := set_if_str "market" market params in
  let params := set_if_int "limit" limit params in
  match _make_request "marketpricefacts" params "json" w with
  | (w', inr json_data) => (w', pd_DataFrame json_data)
  | (w', inl e) => (w', inl (str_exn e))
  end.

Definition test_connection (w : net) : net * bool :=
  match _make_request "market" (<["country_code" := PStr "HT"]> (∅ : row))
          "json" w with
  | (w', inr _) => (w', true)
  | (w', inl _) => (w', false)
  end.

End Client.

End FEWSNETClient.

(** ** Calendar dates as [datetime] handles them *)

Module Calendar.

Record date : Type := Date {
  year : Z;
  month : Z;
  day : Z }.

Definition is_leap (y : Z) : bool :=
  (y mod 4 =? 0) && (negb (y mod 100 =? 0) || (y mod 400 =? 0)).

Definition days_in_month (y m : Z) : Z :=
  if m =? 2 then (if is_leap y then 29 else 28)
  else if (m =? 4) || (m =? 6) || (m =? 9) || (m =? 11) then 30
  else 31.

(** A date that [datetime] can hold. *)
Definition valid (d : date) : Prop :=
  1 <= year d <= 9999 /\ 1 <= month d <= 12
  /\ 1 <= day d <= days_in_month (year d) (month d).

(** [d + timedelta(days=1)]; [None] is the OverflowError past
    9999-12-31. *)
Definition add_one_day (d : date) : option date :=
  if day d <? days_in_month (year d) (month d)
  then Some (Date (year d) (month d) (day d + 1))
  else if month d <? 12 then Some (Date (year d) (month d + 1) 1)
  else if year d <? 9999 then Some (Date (year d + 1) 1 1)
  else None.

(** [date.toordinal()]: the number of the day, 0001-01-01 being day 1. *)
Definition days_before_year (y : Z) : Z :=
  (y - 1) * 365 + (y - 1) / 4 - (y - 1) / 100 + (y - 1) / 400.

Fixpoint days_before_month_from (y : Z) (m : nat) : Z :=
  match m with
  | O => 0
  | S m' => days_before_month_from y m' + days_in_month y (Z.of_nat m)
  end.

Definition days_before_month (y m : Z) : Z :=
  days_before_month_from y (Z.to_nat (m - 1)).

Definition toordinal (d : date) : Z :=
  days_before_year (year d) + days_before_month (year d) (month d) + day d.

(** [strftime("%Y-%m-%d")]: four, two and two decimal digits. *)
Definition digit (n : Z) : ascii := ascii_of_N (48 + Z.to_N (n mod 10)).

Definition pad2 (n : Z) (rest : string) : string :=
  String (digit (n / 10)) (String (digit n) rest).

Definition pad4 (n : Z) (rest : string) : string :=
  String (digit (n / 1000)) (String (digit (n / 100)) (pad2 n rest)).

Definition strftime (d : date) : string :=
  pad4 (year d) (String "-" (pad2 (month d) (String "-" (pad2 (day d) "")))).

(** Calendar order. *)
Definition date_ltb (a b : date) : bool :=
  (year a <? year b)
  || ((year a =? year b)
      && ((month a <? month b)
          || ((month a =? month b) && (day a <? day b)))).

End Calendar.

(** ** The incremental synchronisation of [sync_fews_db.py] *)

Module Sync.

Import FEWSDatabase FEWSNETClient Calendar.

(** How a run of the script ends. *)
Inductive ending : Type :=
  | Returned
  | SysExit (code : Z)
  | Uncaught.

Record run : Type := Run {
  final_db : database;
  final_net : net;
  how : ending }.

(** [df.empty]: no row, or no column. *)
Definition df_empty (df : list row) : bool :=
  forallb (fun r => bool_decide (r = ∅)) df.

(** [len(df)]. *)
Definition len {A} (l : list A) : Z := Z.of_nat (length l).

Section Script.

Variable int_of_str : string -> option Z.
Variable pd_to_datetime : pyval -> option pyval.
Variable pd_DataFrame : value -> string + list row.
Variable str_exn : client_exn -> string.

(** [datetime.strptime(s, "%Y-%m-%d")], a library function; [None] where
    it raises ValueError. *)
Variable strptime : string -> option date.

(** The remote side, and the date that [datetime.now()] falls on. *)
Variable answers : nat -> attempt_outcome.
Variable today : date.

(** Modelled from the spec: [create_tables] runs [schema.sql], which is not
    part of the sources; on a database that has its tables it changes
    nothing. *)
Definition create_tables (db : database) : database := db.

(** The first day to ask for; [None] when the stored date does not parse
    or has no next day. *)
Definition start_date_of (last_sync : option string) : option string :=
  match last_sync with
  | Some s =>
      match strptime s with
      | Some d => strftime <$> add_one_day d
      | None => None
      end
  | None => Some "2005-01-01"
  end.

Definition incremental_sync (db : database) (w : net) : run :=
  let db := create_tables db in
  let last_sync := get_last_sync_date db in
  match start_date_of last_sync with
  | None => Run db w Uncaught
  | Some start_date =>
      let end_date := strftime today in
      if String.ltb end_date start_date then Run db w Returned
      else
        match test_connection answers w with
        | (w, false) => Run db w (SysExit 1)
        | (w, true) =>
            match get_market_prices answers pd_DataFrame str_exn "HT"
                    (Some start_date) (Some end_date) None None None w with
            | (w, inl e) =>
                let db := log_import 0 ∅ (Some start_date) (Some end_date)
                            "failed" (Some e) db in
                Run db w (SysExit 1)
            | (w, inr df) =>
                if df_empty df then
                  let db := log_import 0
                              (<["inserted" := 0]> (<["updated" := 0]> ∅))
                              (Some start_date) (Some end_date)
                              "success" None db in
                  Run db w Returned
                else
                  let (db, stats) :=
                    sync_dataframe int_of_str pd_to_datetime df db in
                  let db := log_import (len df) stats
                              (Some start_date) (Some end_date)
                              "success" None db in
                  Run db w Returned
            end
        end
  end.

End Script.

End Sync.

(** ** Sample data *)

Module Samples.

Import FEWSDatabase FEWSNETClient Calendar.

(** Stand-ins for the library functions: strings are not integers, a
    timestamp parses to itself, a JSON list of records becomes the frame
    of its rows, and [strptime] reads the ten characters that [strftime]
    writes. *)
Definition no_int (s : string) : option Z := None.

Definition keep_datetime (v : pyval) : option pyval := Some v.

Definition frame_of (v : value) : string + list row :=
  match v with
  | VJson rows => inr rows
  | VText _ => inl "DataFrame constructor not properly called!"
  | VNone => inr []
  end.

Definition exn_text (e : client_exn) : string :=
  match e with
  | Timeout => "timeout"
  | RequestException => "request failed"
  | OtherException => "error"
  end.

Definition digit_value (c : ascii) : option Z :=
  let n := Z.of_N (N_of_ascii c) in
  if (48 <=? n) && (n <=? 57) then Some (n - 48) else None.

Definition iso_strptime (s : string) : option date :=
  match s with
  | String y1 (String y2 (String y3 (String y4 (String "-"
      (String m1 (String m2 (String "-"
        (String d1 (String d2 EmptyString))))))))) =>
      match digit_value y1, digit_value y2, digit_value y3, digit_value y4,
            digit_value m1, digit_value m2, digit_value d1, digit_value d2
      with
      | Some a, Some b, Some c, Some d, Some e, Some f, Some g, Some h =>
          let y := a * 1000 + b * 100 + c * 10 + d in
          let m := e * 10 + f in
          let dd := g * 10 + h in
          if (1 <=? y) && (1 <=? m) && (m <=? 12) && (1 <=? dd)
             && (dd <=? days_in_month y m)
          then Some (Date y m dd) else None
      | _, _, _, _, _, _, _, _ => None
      end
  | _ => None
  end.

(** A database with no row, and one with a market, a product, a unit and
    a data source. *)
Definition empty_db : database :=
  Database [] [] [] [] [] [] 1 1 1 1 1 1000.

Definition hinche : market :=
  Market 1 (PInt 7) (PStr "HT2006A001") (PStr "Hinche") (PStr "Centre")
    (PStr "Hinche") (PStr "HT") (PFloat 19 0) (PFloat (-72) 0).

Definition rice : product :=
  Product 1 (PStr "Rice") (PStr "R01132AA") (PStr "Rice, milled")
    (PStr "Local") (PBool true).

Definition pound : unit_row := Unit 1 (PStr "lb") (PStr "Weight") (PStr "kg").

Definition cnsa : data_source :=
  DataSource 1 (PInt 3) (PStr "CNSA") (PStr "CNSA bulletin").

Definition stocked_db : database :=
  Database [hinche] [rice] [pound] [cnsa] [] [] 2 2 2 2 1 1000.

(** A price row about them, where the market goes by another name. *)
Definition rice_row : row :=
  <["market_id" := PInt 7]> (<["market" := PStr "Jacmel"]>
  (<["product" := PStr "Rice"]> (<["product_source" := PStr "Local"]>
  (<["unit" := PStr "lb"]> (<["datasourceorganization" := PInt 3]>
  (<["period_date" := PStr "2024-01-31"]> (<["price_type" := PStr "Retail"]>
  (<["value" := PInt 50]> ∅)))))))).

(** The same row without its source, without its market, without its
    period date. *)
Definition unsourced_row : row := delete "datasourceorganization" rice_row.
Definition marketless_row : row := delete "market_id" rice_row.

(** A log with one successful import ending on 2024-03-10. *)
Definition synced_db : database :=
  Database [] [] [] [] []
    [ImportEntry 900 12 12 0 0 (Some "2005-01-01") (Some "2024-03-10")
       "success" None]
    1 1 1 1 1 1000.

(** A remote side that answers every request with one price row. *)
Definition steady (n : nat) : attempt_outcome :=
  Responded (Response [rice_row] "").

(** One that times out once and then answers, and one that answers the
    connection test and then breaks down. *)
Definition flaky (body : response) (n : nat) : attempt_outcome :=
  match n with
  | O => TimedOut
  | S _ => Responded body
  end.

Definition failing (n : nat) : attempt_outcome :=
  match n with
  | O => Responded (Response [] "")
  | S _ => Crashed
  end.

End Samples.

(** ** Properties of the database operations *)

Module FEWSDatabaseFacts.

Import FEWSDatabase.

(** *** Lookups *)

Lemma find_exists {A} (f : A -> bool) (l : list A) (x : A) :
  In x l -> f x = true ->
  exists y, List.find f l = Some y /\ In y l /\ f y = true.
Proof.
  intros Hin Hfx.
  destruct (List.find f l) as [y|] eqn:Hfind.
  - exists y. apply find_some in Hfind. tauto.
  - apply (find_none f l Hfind) in Hin. congruence.
Qed.

Lemma find_snoc {A} (f : A -> bool) (l : list A) (x : A) :
  List.find f (l ++ [x]) =
  match List.find f l with
  | Some y => Some y
  | None => if f x then Some x else None
  end.
Proof.
  induction l as [|a l IH]; simpl.
  - reflexivity.
  - destruct (f a); [reflexivity | exact IH].
Qed.

Lemma find_none_iff {A} (f : A -> bool) (l : list A) :
  List.find f l = None <-> existsb f l = false.
Proof.
  induction l as [|a l IH]; simpl; [tauto|].
  destruct (f a); simpl; [split; discriminate | exact IH].
Qed.

Lemma sql_eq_true (a b : pyval) :
  sql_eq a b = true <-> a = b /\ a <> PNone.
Proof.
  unfold sql_eq.
  destruct a, b; simpl; rewrite ?bool_decide_eq_true;
    (split; [ try discriminate; intros H; split; congruence
            | intros [H1 H2]; congruence ]).
Qed.

Lemma sql_eq_null_r (a : pyval) : sql_eq a PNone = false.
Proof. destruct a; reflexivity. Qed.

Lemma sql_eq_refl (a : pyval) : a <> PNone -> sql_eq a a = true.
Proof. intros H. apply sql_eq_true. tauto. Qed.

(** *** Dimension tables: get or create *)

Section Dimensions.

Variable int_of_str : string -> option Z.

(** C10. A row whose natural key matches a market, product, unit or
    data-source record gets the id of a matching record that is already in
    the table, and the operation leaves the whole database, that record
    included, as it was. *)
Theorem dimension_records_immutable (r : row) (db : database) :
  (forall m, In m (markets db) ->
     sql_eq (m_fews_id m) (get r "market_id") = true ->
     exists m', In m' (markets db)
       /\ sql_eq (m_fews_id m') (get r "market_id") = true
       /\ get_or_create_market r db = (db, Ok (m_id m')))
  /\ (forall p, In p (products db) ->
     sql_eq (p_name p) (get r "product") = true ->
     sql_eq (p_product_source p) (get r "product_source") = true ->
     exists p', In p' (products db)
       /\ sql_eq (p_name p') (get r "product") = true
       /\ sql_eq (p_product_source p') (get r "product_source") = true
       /\ get_or_create_product r db = (db, Ok (p_id p')))
  /\ (forall u, In u (units db) ->
     sql_eq (u_name u) (get r "unit") = true ->
     exists u', In u' (units db)
       /\ sql_eq (u_name u') (get r "unit") = true
       /\ get_or_create_unit r db = (db, Ok (u_id u')))
  /\ (forall s n, In s (data_sources db) ->
     pd_isna (get r "datasourceorganization") = false ->
     py_int int_of_str (get r "datasourceorganization") = Ok n ->
     sql_eq (s_fews_id s) (PInt n) = true ->
     exists s', In s' (data_sources db)
       /\ sql_eq (s_fews_id s') (PInt n) = true
       /\ get_or_create_source int_of_str r db = (db, Ok (Some (s_id s')))).
Proof.
  repeat split.
  - intros m Hin Hm.
    destruct (find_exists
                (fun m => sql_eq (m_fews_id m) (get r "market_id"))
                _ _ Hin Hm) as (m' & Hf & Hin' & Hm').
    exists m'. repeat split; trivial.
    unfold get_or_create_market, bind, query, select_market.
    rewrite Hf. reflexivity.
  - intros p Hin Hn Hs.
    destruct (find_exists
                (fun p => sql_eq (p_name p) (get r "product")
                          && sql_eq (p_product_source p)
                               (get r "product_source"))
                _ _ Hin) as (p' & Hf & Hin' & Hp').
    { rewrite Hn, Hs. reflexivity. }
    apply andb_true_iff in Hp' as [Hn' Hs'].
    exists p'. repeat split; trivial.
    unfold get_or_create_product, bind, query, select_product.
    rewrite Hf. reflexivity.
  - intros u Hin Hu.
    destruct (find_exists (fun u => sql_eq (u_name u) (get r "unit"))
                _ _ Hin Hu) as (u' & Hf & Hin' & Hu').
    exists u'. repeat split; trivial.
    unfold get_or_create_unit, bind, query, select_unit.
    rewrite Hf. reflexivity.
  - intros s n Hin Hna Hint Hs.
    destruct (find_exists (fun s => sql_eq (s_fews_id s) (PInt n))
                _ _ Hin Hs) as (s' & Hf & Hin' & Hs').
    exists s'. repeat split; trivial.
    unfold get_or_create_source. rewrite Hna, Hint.
    unfold bind, query, select_source. rewrite Hf. reflexivity.
Qed.

(** C3, as the code has it.  Merging a row into the market or the product
    table is get-or-create: when a record matches the row's natural key
    the database is left as it is and the id of a matching record is
    returned, nothing being updated from the row; when none matches, one
    record built from the row is appended under the next id of the
    sequence, and that id is returned unless the key is NULL, which no
    lookup finds. *)
Theorem dimension_merge_is_get_or_create (r : row) (db : database) :
  (let fews_id := get r "market_id" in
   if existsb (fun m => sql_eq (m_fews_id m) fews_id) (markets db)
   then exists m, In m (markets db) /\ sql_eq (m_fews_id m) fews_id = true
          /\ get_or_create_market r db = (db, Ok (m_id m))
   else get_or_create_market r db =
          (with_markets
             (markets db ++
                [Market (seq_markets db) fews_id (get r "fnid")
                   (get r "market") (get r "admin_1") (get r "admin_2")
                   (get_default r "country_code" (PStr "HT"))
                   (get r "latitude") (get r "longitude")])
             (seq_markets db + 1) db,
           if sql_eq fews_id fews_id then Ok (seq_markets db)
           else Raise TypeError))
  /\
  (let name := get r "product" in
   let source := get r "product_source" in
   if existsb (fun p => sql_eq (p_name p) name
                        && sql_eq (p_product_source p) source) (products db)
   then exists p, In p (products db) /\ sql_eq (p_name p) name = true
          /\ sql_eq (p_product_source p) source = true
          /\ get_or_create_product r db = (db, Ok (p_id p))
   else get_or_create_product r db =
          (with_products
             (products db ++
                [Product (seq_products db) name (get r "cpcv2")
                   (get r "cpcv2_description") source
                   (get_default r "is_staple_food" (PBool false))])
             (seq_products db + 1) db,
           if sql_eq name name && sql_eq source source
           then Ok (seq_products db) else Raise TypeError)).
Proof.
  split; cbv zeta.
  - destruct (existsb _ (markets db)) eqn:Hex.
    + apply existsb_exists in Hex as (m & Hin & Hm).
      destruct (find_exists
                  (fun m => sql_eq (m_fews_id m) (get r "market_id"))
                  _ _ Hin Hm) as (m' & Hf & Hin' & Hm').
      exists m'. repeat split; trivial.
      unfold get_or_create_market, bind, query, select_market.
      rewrite Hf. reflexivity.
    + apply find_none_iff in Hex.
      unfold get_or_create_market, bind, query, execute, select_market,
        insert_market.
      rewrite Hex. simpl. rewrite find_snoc, Hex. simpl.
      destruct (sql_eq _ _); reflexivity.
  - destruct (existsb _ (products db)) eqn:Hex.
    + apply existsb_exists in Hex as (p & Hin & Hp).
      destruct (find_exists
                  (fun p => sql_eq (p_name p) (get r "product")
                            && sql_eq (p_product_source p)
                                 (get r "product_source"))
                  _ _ Hin Hp) as (p' & Hf & Hin' & Hp').
      apply andb_true_iff in Hp' as [Hn' Hs'].
      exists p'. repeat split; trivial.
      unfold get_or_create_product, bind, query, select_product.
      rewrite Hf. reflexivity.
    + apply find_none_iff in Hex.
      unfold get_or_create_product, bind, query, execute, select_product,
        insert_product.
      rewrite Hex. simpl. rewrite find_snoc, Hex. simpl.
      destruct (sql_eq _ _ && sql_eq _ _); reflexivity.
Qed.

End Dimensions.

(** *** The fact table and the synchronisation loop *)

Section Upsert.

Variable int_of_str : string -> option Z.
Variable pd_to_datetime : pyval -> option pyval.

Local Abbreviation upsert_price_observation :=
  (upsert_price_observation pd_to_datetime).
Local Abbreviation parse_modified := (parse_modified pd_to_datetime).
Local Abbreviation get_or_create_source := (get_or_create_source int_of_str).
Local Abbreviation sync_row := (sync_row int_of_str pd_to_datetime).
Local Abbreviation sync_step := (sync_step int_of_str pd_to_datetime).
Local Abbreviation sync_dataframe := (sync_dataframe int_of_str pd_to_datetime).

Lemma updated_observation_key (r : row) (t : pyval) (now : Z)
    (o : price_observation) :
  natural_key (updated_observation r t now o) = natural_key o.
Proof. reflexivity. Qed.

Lemma update_keeps_keys (r : row) (t : pyval) (id : Z) (db : database) :
  map natural_key (price_observations (update_price_observation r t id db))
  = map natural_key (price_observations db).
Proof.
  unfold update_price_observation. simpl.
  rewrite map_map. apply map_ext. intros o.
  destruct (po_id o =? id); reflexivity.
Qed.

(** The statistics dictionary with given counts. *)
Definition stats_dict (inserted updated skipped errors : Z) : gmap string Z :=
  <["inserted" := inserted]> (<["updated" := updated]>
    (<["skipped" := skipped]> (<["errors" := errors]> ∅))).

Lemma incr_inserted (i u k e : Z) :
  incr "inserted" (stats_dict i u k e) = stats_dict (i + 1) u k e.
Proof. unfold incr, stats_dict. by rewrite alter_insert_eq. Qed.

Lemma incr_updated (i u k e : Z) :
  incr "updated" (stats_dict i u k e) = stats_dict i (u + 1) k e.
Proof.
  unfold incr, stats_dict.
  rewrite alter_insert_ne by done. by rewrite alter_insert_eq.
Qed.

Lemma incr_errors (i u k e : Z) :
  incr "errors" (stats_dict i u k e) = stats_dict i u k (e + 1).
Proof.
  unfold incr, stats_dict.
  rewrite !alter_insert_ne by done. by rewrite alter_insert_eq.
Qed.

Lemma stats_dict_lookup (i u k e : Z) :
  stats_dict i u k e !! "inserted" = Some i
  /\ stats_dict i u k e !! "updated" = Some u
  /\ stats_dict i u k e !! "skipped" = Some k
  /\ stats_dict i u k e !! "errors" = Some e.
Proof. unfold stats_dict. repeat split; by simplify_map_eq. Qed.

(** What one turn of the loop does to the counts. *)
Lemma sync_step_counts (r : row) (db : database) (i u k e : Z) :
  exists db',
    (sync_row r db = (db', Ok true)
       /\ sync_step (db, stats_dict i u k e) r
           = (db', stats_dict (i + 1) u k e))
    \/ (sync_row r db = (db', Ok false)
       /\ sync_step (db, stats_dict i u k e) r
           = (db', stats_dict i (u + 1) k e))
    \/ (exists x, sync_row r db = (db', Raise x)
       /\ sync_step (db, stats_dict i u k e) r
           = (db', stats_dict i u k (e + 1))).
Proof.
  unfold FEWSDatabase.sync_step.
  destruct (sync_row r db) as [db' [[|]|x]]; exists db'.
  - left. by rewrite incr_inserted.
  - right; left. by rewrite incr_updated.
  - right; right. exists x. by rewrite incr_errors.
Qed.

Lemma sync_loop_counts (df : list row) (db : database) (i u k e : Z) :
  exists db' i' u' e',
    fold_left sync_step df (db, stats_dict i u k e)
    = (db', stats_dict i' u' k e')
    /\ i' + u' + e' = i + u + e + Z.of_nat (length df)
    /\ i <= i' /\ u <= u' /\ e <= e'.
Proof.
  revert db i u e.
  induction df as [|r df IH]; intros db i u e; cbn [fold_left].
  - exists db, i, u, e. simpl. repeat split; lia.
  - destruct (sync_step_counts r db i u k e)
      as (db1 & [[_ ->] | [[_ ->] | (x & _ & ->)]]).
    + destruct (IH db1 (i + 1) u e) as (db' & i' & u' & e' & -> & H).
      exists db', i', u', e'. split; [reflexivity|].
      cbn [length]. rewrite Nat2Z.inj_succ. lia.
    + destruct (IH db1 i (u + 1) e) as (db' & i' & u' & e' & -> & H).
      exists db', i', u', e'. split; [reflexivity|].
      cbn [length]. rewrite Nat2Z.inj_succ. lia.
    + destruct (IH db1 i u (e + 1)) as (db' & i' & u' & e' & -> & H).
      exists db', i', u', e'. split; [reflexivity|].
      cbn [length]. rewrite Nat2Z.inj_succ. lia.
Qed.

(** C8. The dictionary returned by [sync_dataframe] holds counts with
    inserted + updated + errors equal to the number of rows of the
    DataFrame, and its [skipped] entry is 0. *)
Theorem sync_dataframe_counts_add_up (df : list row) (db : database) :
  exists inserted updated errors,
    (sync_dataframe df db).2 !! "inserted" = Some inserted
    /\ (sync_dataframe df db).2 !! "updated" = Some updated
    /\ (sync_dataframe df db).2 !! "errors" = Some errors
    /\ (sync_dataframe df db).2 !! "skipped" = Some 0
    /\ inserted + updated + errors = Z.of_nat (length df).
Proof.
  unfold FEWSDatabase.sync_dataframe.
  change initial_stats with (stats_dict 0 0 0 0).
  destruct (sync_loop_counts df db 0 0 0 0)
    as (db' & i & u & e & -> & Hsum & _).
  exists i, u, e. simpl snd.
  destruct (stats_dict_lookup i u 0 e) as (Hi & Hu & Hk & He).
  repeat split; trivial; lia.
Qed.

(** [grows db db']: the fact table and the log are the same, and every
    dimension table of [db'] starts with the rows of [db]. *)
Definition grows (db db' : database) : Prop :=
  price_observations db' = price_observations db
  /\ import_log db' = import_log db
  /\ (exists l, markets db' = (markets db ++ l)%list)
  /\ (exists l, products db' = (products db ++ l)%list)
  /\ (exists l, units db' = (units db ++ l)%list)
  /\ (exists l, data_sources db' = (data_sources db ++ l)%list).

Lemma grows_refl (db : database) : grows db db.
Proof.
  unfold grows. repeat split; trivial; exists []; by rewrite app_nil_r.
Qed.

Lemma grows_trans (a b c : database) : grows a b -> grows b c -> grows a c.
Proof.
  intros (Hp & Hl & [m Hm] & [p Hp'] & [u Hu] & [s Hs])
         (Hp2 & Hl2 & [m2 Hm2] & [p2 Hp2'] & [u2 Hu2] & [s2 Hs2]).
  unfold grows. repeat split; try congruence.
  - exists (m ++ m2)%list. rewrite Hm2, Hm. by rewrite app_assoc.
  - exists (p ++ p2)%list. rewrite Hp2', Hp'. by rewrite app_assoc.
  - exists (u ++ u2)%list. rewrite Hu2, Hu. by rewrite app_assoc.
  - exists (s ++ s2)%list. rewrite Hs2, Hs. by rewrite app_assoc.
Qed.

Ltac grows_step :=
  unfold grows; simpl; repeat split; trivial;
  first [ by eexists | exists []; by rewrite app_nil_r ].

Lemma get_or_create_market_grows (r : row) (db : database) :
  grows db (get_or_create_market r db).1.
Proof.
  unfold get_or_create_market, bind, query, execute, first_column, ret, raise.
  destruct (select_market _ db); simpl; [apply grows_refl|].
  destruct (select_market _ _); simpl; grows_step.
Qed.

Lemma get_or_create_product_grows (r : row) (db : database) :
  grows db (get_or_create_product r db).1.
Proof.
  unfold get_or_create_product, bind, query, execute, first_column, ret, raise.
  destruct (select_product _ _ db); simpl; [apply grows_refl|].
  destruct (select_product _ _ _); simpl; grows_step.
Qed.

Lemma get_or_create_unit_grows (r : row) (db : database) :
  grows db (get_or_create_unit r db).1.
Proof.
  unfold get_or_create_unit, bind, query, execute, first_column, ret, raise.
  destruct (select_unit _ db); simpl; [apply grows_refl|].
  destruct (select_unit _ _); simpl; grows_step.
Qed.

Lemma get_or_create_source_grows (r : row) (db : database) :
  grows db (get_or_create_source r db).1.
Proof.
  unfold FEWSDatabase.get_or_create_source.
  destruct (pd_isna _); [apply grows_refl|].
  destruct (py_int _ _); [|apply grows_refl].
  unfold bind, query, execute, first_column, ret, raise.
  destruct (select_source _ db); simpl; [apply grows_refl|].
  destruct (select_source _ _); simpl; grows_step.
Qed.

(** The upsert itself never raises. *)
Lemma upsert_price_observation_returns (r : row) (m p u : Z) (s : option Z)
    (db : database) :
  exists b, (upsert_price_observation r m p u s db).2 = Ok b.
Proof.
  unfold FEWSDatabase.upsert_price_observation, bind, query, execute, ret.
  destruct (select_price_observation _ _ _ _ _ db); simpl; eauto.
Qed.

(** A row that raises has only added dimension rows. *)
Lemma sync_row_raise_grows (r : row) (db db' : database) (x : exn) :
  sync_row r db = (db', Raise x) -> grows db db'.
Proof.
  unfold FEWSDatabase.sync_row, bind.
  pose proof (get_or_create_market_grows r db) as Hm.
  destruct (get_or_create_market r db) as [db1 [m|e1]]; simpl in Hm;
    [|intros [= <- _]; exact Hm].
  pose proof (get_or_create_product_grows r db1) as Hp.
  destruct (get_or_create_product r db1) as [db2 [p|e2]]; simpl in Hp;
    [|intros [= <- _]; eauto using grows_trans].
  pose proof (get_or_create_unit_grows r db2) as Hu.
  destruct (get_or_create_unit r db2) as [db3 [u|e3]]; simpl in Hu;
    [|intros [= <- _]; eauto using grows_trans].
  pose proof (get_or_create_source_grows r db3) as Hs.
  destruct (get_or_create_source r db3) as [db4 [s|e4]]; simpl in Hs;
    [|intros [= <- _]; eauto using grows_trans].
  destruct (upsert_price_observation_returns r m p u s db4) as [b Hb].
  destruct (upsert_price_observation r m p u s db4) as [db5 res].
  simpl in Hb. subst res. discriminate.
Qed.

(** C7. When a row raises after the rows before it have been processed,
    the exception is caught: only the [errors] entry of the statistics
    moves, by one; the observations written for the earlier rows are all
    there and the dimension tables have lost nothing; and the loop goes on
    with the remaining rows from that state. *)
Theorem sync_dataframe_has_no_rollback (before after : list row) (bad : row)
    (db db2 : database) (x : exn) :
  let db1 := (sync_dataframe before db).1 in
  let stats1 := (sync_dataframe before db).2 in
  sync_row bad db1 = (db2, Raise x) ->
  sync_dataframe (before ++ bad :: after) db
    = fold_left sync_step after (db2, incr "errors" stats1)
  /\ (forall k, incr "errors" stats1 !! k =
        if decide (k = "errors") then (fun n => n + 1) <$> stats1 !! k
        else stats1 !! k)
  /\ price_observations db2 = price_observations db1
  /\ grows db1 db2.
Proof.
  intros db1 stats1 Hbad.
  pose proof (sync_row_raise_grows _ _ _ _ Hbad) as Hg.
  split; [|split; [|split]].
  - unfold FEWSDatabase.sync_dataframe. rewrite fold_left_app.
    cbn [fold_left].
    fold (sync_dataframe before db).
    rewrite (surjective_pairing (sync_dataframe before db)).
    fold db1 stats1.
    unfold FEWSDatabase.sync_step at 2. rewrite Hbad. reflexivity.
  - intros k. unfold incr. rewrite lookup_alter.
    destruct (decide ("errors" = k)), (decide (k = "errors"));
      congruence.
  - apply Hg.
  - exact Hg.
Qed.

(** The two branches of the upsert, as one equation. *)
Lemma upsert_price_observation_eq (r : row) (m p u : Z) (s : option Z)
    (db : database) :
  upsert_price_observation r m p u s db =
  match select_price_observation m p u (get r "period_date")
          (get_default r "price_type" (PStr "Retail")) db with
  | Some id => (update_price_observation r (parse_modified r) id db, Ok false)
  | None =>
      (insert_price_observation
         (new_observation r m p u s (get r "period_date")
            (get_default r "price_type" (PStr "Retail")) (parse_modified r))
         db, Ok true)
  end.
Proof.
  unfold FEWSDatabase.upsert_price_observation, bind, query, execute, ret.
  destruct (select_price_observation _ _ _ _ _ db); reflexivity.
Qed.











End Upsert.

(** *** Synchronising the same DataFrame again *)

Section Idempotence.

Variable int_of_str : string -> option Z.
Variable pd_to_datetime : pyval -> option pyval.

Local Abbreviation upsert_price_observation :=
  (upsert_price_observation pd_to_datetime).
Local Abbreviation parse_modified := (parse_modified pd_to_datetime).
Local Abbreviation get_or_create_source := (get_or_create_source int_of_str).
Local Abbreviation sync_row := (sync_row int_of_str pd_to_datetime).
Local Abbreviation sync_step := (sync_step int_of_str pd_to_datetime).
Local Abbreviation sync_dataframe :=
  (sync_dataframe int_of_str pd_to_datetime).

(** The lookups of a row, without the inserts. *)
Definition lookup_source (r : row) (db : database) : option (option Z) :=
  let v := get r "datasourceorganization" in
  if pd_isna v then Some None
  else match py_int int_of_str v with
       | Ok n => match select_source (PInt n) db with
                 | Some id => Some (Some id)
                 | None => None
                 end
       | Raise _ => None
       end.

Definition resolve (r : row) (db : database)
  : option (Z * Z * Z * option Z) :=
  match select_market (get r "market_id") db,
        select_product (get r "product") (get r "product_source") db,
        select_unit (get r "unit") db,
        lookup_source r db with
  | Some m, Some p, Some u, Some s => Some (m, p, u, s)
  | _, _, _, _ => None
  end.

(** The WHERE clause of the upsert, on a natural key. *)
Definition key_matches (m p u : Z) (d t : pyval)
    (k : Z * Z * Z * pyval * pyval) : bool :=
  let '(m', p', u', d', t') := k in
  (m' =? m) && (p' =? p) && (u' =? u) && sql_eq d' d && sql_eq t' t.

(** [stored r db]: the dimensions of the row resolve in [db], and an
    observation with its natural key is there. *)
Definition stored (r : row) (db : database) : Prop :=
  exists m p u s,
    resolve r db = Some (m, p, u, s)
    /\ existsb (key_matches m p u (get r "period_date")
                  (get_default r "price_type" (PStr "Retail")))
         (map natural_key (price_observations db)) = true.

(** [evolves db db']: every dimension table and the list of natural keys
    of [db'] start with those of [db]. *)
Definition evolves (db db' : database) : Prop :=
  (exists l, markets db' = (markets db ++ l)%list)
  /\ (exists l, products db' = (products db ++ l)%list)
  /\ (exists l, units db' = (units db ++ l)%list)
  /\ (exists l, data_sources db' = (data_sources db ++ l)%list)
  /\ (exists l, map natural_key (price_observations db')
                = (map natural_key (price_observations db) ++ l)%list).

(** [same_shape db db']: the same dimension tables and natural keys. *)
Definition same_shape (db db' : database) : Prop :=
  markets db' = markets db
  /\ products db' = products db
  /\ units db' = units db
  /\ data_sources db' = data_sources db
  /\ map natural_key (price_observations db')
     = map natural_key (price_observations db).

Lemma evolves_refl (db : database) : evolves db db.
Proof. unfold evolves. repeat split; exists []; by rewrite app_nil_r. Qed.

Lemma evolves_trans (a b c : database) :
  evolves a b -> evolves b c -> evolves a c.
Proof.
  intros ([m Hm] & [p Hp] & [u Hu] & [s Hs] & [k Hk])
         ([m2 Hm2] & [p2 Hp2] & [u2 Hu2] & [s2 Hs2] & [k2 Hk2]).
  unfold evolves. repeat split.
  - exists (m ++ m2)%list. rewrite Hm2, Hm. by rewrite app_assoc.
  - exists (p ++ p2)%list. rewrite Hp2, Hp. by rewrite app_assoc.
  - exists (u ++ u2)%list. rewrite Hu2, Hu. by rewrite app_assoc.
  - exists (s ++ s2)%list. rewrite Hs2, Hs. by rewrite app_assoc.
  - exists (k ++ k2)%list. rewrite Hk2, Hk. by rewrite app_assoc.
Qed.

Lemma grows_evolves (db db' : database) : grows db db' -> evolves db db'.
Proof.
  intros (Hp & _ & Hm & Hpr & Hu & Hs). unfold evolves.
  repeat split; trivial. exists []. by rewrite Hp, app_nil_r.
Qed.

Lemma same_shape_evolves (db db' : database) :
  same_shape db db' -> evolves db db'.
Proof.
  intros (Hm & Hp & Hu & Hs & Hk). unfold evolves.
  rewrite Hm, Hp, Hu, Hs, Hk.
  repeat split; exists []; by rewrite app_nil_r.
Qed.

Lemma same_shape_refl (db : database) : same_shape db db.
Proof. by repeat split. Qed.

Lemma same_shape_trans (a b c : database) :
  same_shape a b -> same_shape b c -> same_shape a c.
Proof.
  intros (Hm & Hp & Hu & Hs & Hk) (Hm2 & Hp2 & Hu2 & Hs2 & Hk2).
  unfold same_shape. repeat split; congruence.
Qed.

Lemma find_app_Some {A} (f : A -> bool) (l l' : list A) (x : A) :
  List.find f l = Some x -> List.find f (l ++ l') = Some x.
Proof.
  induction l as [|a l IH]; simpl; [discriminate|].
  destruct (f a); [trivial | exact IH].
Qed.

Lemma existsb_map {A B} (f : B -> bool) (g : A -> B) (l : list A) :
  existsb f (map g l) = existsb (fun x => f (g x)) l.
Proof. induction l as [|a l IH]; simpl; [reflexivity | by rewrite IH]. Qed.

Lemma po_matches_key (m p u : Z) (d t : pyval) (o : price_observation) :
  po_matches m p u d t o = key_matches m p u d t (natural_key o).
Proof. reflexivity. Qed.

(** Lookups that succeed keep their answer when tables are extended. *)
Lemma select_market_evolves (db db' : database) (k : pyval) (m : Z) :
  evolves db db' -> select_market k db = Some m ->
  select_market k db' = Some m.
Proof.
  intros ([l Hl] & _). unfold select_market. rewrite Hl.
  destruct (List.find _ (markets db)) as [x|] eqn:Hf; [|discriminate].
  by rewrite (find_app_Some _ _ l _ Hf).
Qed.

Lemma select_product_evolves (db db' : database) (n c : pyval) (p : Z) :
  evolves db db' -> select_product n c db = Some p ->
  select_product n c db' = Some p.
Proof.
  intros (_ & [l Hl] & _). unfold select_product. rewrite Hl.
  destruct (List.find _ (products db)) as [x|] eqn:Hf; [|discriminate].
  by rewrite (find_app_Some _ _ l _ Hf).
Qed.

Lemma select_unit_evolves (db db' : database) (k : pyval) (u : Z) :
  evolves db db' -> select_unit k db = Some u ->
  select_unit k db' = Some u.
Proof.
  intros (_ & _ & [l Hl] & _). unfold select_unit. rewrite Hl.
  destruct (List.find _ (units db)) as [x|] eqn:Hf; [|discriminate].
  by rewrite (find_app_Some _ _ l _ Hf).
Qed.

Lemma select_source_evolves (db db' : database) (k : pyval) (i : Z) :
  evolves db db' -> select_source k db = Some i ->
  select_source k db' = Some i.
Proof.
  intros (_ & _ & _ & [l Hl] & _). unfold select_source. rewrite Hl.
  destruct (List.find _ (data_sources db)) as [x|] eqn:Hf; [|discriminate].
  by rewrite (find_app_Some _ _ l _ Hf).
Qed.

Lemma lookup_source_evolves (db db' : database) (r : row) (s : option Z) :
  evolves db db' -> lookup_source r db = Some s ->
  lookup_source r db' = Some s.
Proof.
  intros He. unfold lookup_source.
  destruct (pd_isna _); [trivial|].
  destruct (py_int _ _) as [n|]; [|trivial].
  destruct (select_source (PInt n) db) as [i|] eqn:Hs; [|discriminate].
  by rewrite (select_source_evolves _ _ _ _ He Hs).
Qed.

Lemma resolve_Some (r : row) (db : database) (m p u : Z) (s : option Z) :
  resolve r db = Some (m, p, u, s) <->
  select_market (get r "market_id") db = Some m
  /\ select_product (get r "product") (get r "product_source") db = Some p
  /\ select_unit (get r "unit") db = Some u
  /\ lookup_source r db = Some s.
Proof.
  unfold resolve.
  destruct (select_market _ db), (select_product _ _ db),
    (select_unit _ db), (lookup_source r db); split;
    try discriminate; try (intros (? & ? & ? & ?); discriminate).
  - intros [=]; subst. by repeat split.
  - intros ([=] & [=] & [=] & [=]); subst. reflexivity.
Qed.

Lemma stored_evolves (db db' : database) (r : row) :
  evolves db db' -> stored r db -> stored r db'.
Proof.
  intros He (m & p & u & s & Hres & Hex).
  apply resolve_Some in Hres as (Hm & Hp & Hu & Hs).
  exists m, p, u, s. split.
  - apply resolve_Some. repeat split.
    + eapply select_market_evolves; eauto.
    + eapply select_product_evolves; eauto.
    + eapply select_unit_evolves; eauto.
    + eapply lookup_source_evolves; eauto.
  - destruct He as (_ & _ & _ & _ & [l Hl]).
    rewrite Hl, existsb_app, Hex. reflexivity.
Qed.

(** A dimension operation that returns an id leaves the lookup answering
    that id. *)
Lemma get_or_create_market_found (r : row) (db db' : database) (m : Z) :
  get_or_create_market r db = (db', Ok m) ->
  select_market (get r "market_id") db' = Some m.
Proof.
  unfold get_or_create_market, bind, query, execute, first_column, ret,
    raise.
  destruct (select_market _ db) eqn:H1; cbv beta iota zeta;
    [intros [=]; by subst|].
  destruct (select_market _ (insert_market _ _)) eqn:H2; cbv beta iota zeta;
    [intros [=]; by subst|discriminate].
Qed.

Lemma get_or_create_product_found (r : row) (db db' : database) (p : Z) :
  get_or_create_product r db = (db', Ok p) ->
  select_product (get r "product") (get r "product_source") db' = Some p.
Proof.
  unfold get_or_create_product, bind, query, execute, first_column, ret,
    raise.
  destruct (select_product _ _ db) eqn:H1; cbv beta iota zeta;
    [intros [=]; by subst|].
  destruct (select_product _ _ (insert_product _ _)) eqn:H2; cbv beta iota zeta;
    [intros [=]; by subst|discriminate].
Qed.

Lemma get_or_create_unit_found (r : row) (db db' : database) (u : Z) :
  get_or_create_unit r db = (db', Ok u) ->
  select_unit (get r "unit") db' = Some u.
Proof.
  unfold get_or_create_unit, bind, query, execute, first_column, ret, raise.
  destruct (select_unit _ db) eqn:H1; cbv beta iota zeta;
    [intros [=]; by subst|].
  destruct (select_unit _ (insert_unit _ _)) eqn:H2; cbv beta iota zeta;
    [intros [=]; by subst|discriminate].
Qed.

Lemma get_or_create_source_found (r : row) (db db' : database)
    (s : option Z) :
  get_or_create_source r db = (db', Ok s) ->
  lookup_source r db' = Some s.
Proof.
  unfold FEWSDatabase.get_or_create_source, lookup_source.
  destruct (pd_isna _); [intros [=]; by subst|].
  destruct (py_int _ _) as [n|]; [|discriminate].
  unfold bind, query, execute, first_column, ret, raise.
  destruct (select_source _ db) eqn:H1; cbv beta iota zeta;
    [intros [=]; subst; by rewrite H1|].
  destruct (select_source _ (insert_source _ _)) eqn:H2; cbv beta iota zeta;
    [intros [=]; subst; by rewrite H2|discriminate].
Qed.

(** The upsert touches no dimension table and keeps the keys it found. *)
Lemma upsert_evolves (r : row) (m p u : Z) (s : option Z) (db : database) :
  evolves db (upsert_price_observation r m p u s db).1.
Proof.
  rewrite (upsert_price_observation_eq pd_to_datetime).
  destruct (select_price_observation _ _ _ _ _ db) as [id|]; cbn [fst].
  - apply same_shape_evolves. unfold same_shape.
    rewrite (update_keeps_keys r _ id db). by repeat split.
  - unfold evolves, insert_price_observation. cbn.
    repeat split; try (exists []; by rewrite app_nil_r).
    eexists. by rewrite map_app.
Qed.

Lemma upsert_stores (r : row) (m p u : Z) (s : option Z) (db : database) :
  get r "period_date" <> PNone ->
  get_default r "price_type" (PStr "Retail") <> PNone ->
  existsb (key_matches m p u (get r "period_date")
             (get_default r "price_type" (PStr "Retail")))
    (map natural_key
       (price_observations (upsert_price_observation r m p u s db).1))
  = true.
Proof.
  intros Hd Ht.
  rewrite (upsert_price_observation_eq pd_to_datetime).
  unfold select_price_observation.
  destruct (List.find _ (price_observations db)) as [o|] eqn:Hf; cbn [fst].
  - cbn [fmap option_fmap option_map fst].
    rewrite update_keeps_keys. rewrite existsb_map.
    apply existsb_exists. exists o.
    apply find_some in Hf as [Hin Ho]. split; [exact Hin|].
    by rewrite <- po_matches_key.
  - cbn [fmap option_fmap option_map fst].
    unfold insert_price_observation. cbn.
    rewrite map_app, existsb_app. apply orb_true_iff. right. cbn.
    rewrite !Z.eqb_refl, !sql_eq_refl by assumption. reflexivity.
Qed.

(** A row that went through is stored afterwards. *)
Lemma sync_row_stores (r : row) (db db' : database) (b : bool) :
  get r "period_date" <> PNone ->
  get_default r "price_type" (PStr "Retail") <> PNone ->
  sync_row r db = (db', Ok b) ->
  stored r db' /\ evolves db db'.
Proof.
  intros Hd Ht. unfold FEWSDatabase.sync_row, bind.
  pose proof (get_or_create_market_grows r db) as Gm.
  destruct (get_or_create_market r db) as [db1 [m|e1]] eqn:Em;
    [|discriminate].
  pose proof (get_or_create_product_grows r db1) as Gp.
  destruct (get_or_create_product r db1) as [db2 [p|e2]] eqn:Ep;
    [|discriminate].
  pose proof (get_or_create_unit_grows r db2) as Gu.
  destruct (get_or_create_unit r db2) as [db3 [u|e3]] eqn:Eu;
    [|discriminate].
  pose proof (get_or_create_source_grows int_of_str r db3) as Gs.
  destruct (get_or_create_source r db3) as [db4 [s|e4]] eqn:Es;
    [|discriminate].
  cbn [fst] in Gm, Gp, Gu, Gs.
  apply grows_evolves in Gm, Gp, Gu, Gs.
  pose proof (upsert_evolves r m p u s db4) as Gx.
  pose proof (upsert_stores r m p u s db4 Hd Ht) as Hx.
  destruct (upsert_price_observation r m p u s db4) as [db5 res].
  cbn [fst] in Gx, Hx. intros [= <- _].
  apply get_or_create_market_found in Em.
  apply get_or_create_product_found in Ep.
  apply get_or_create_unit_found in Eu.
  apply get_or_create_source_found in Es.
  split.
  - exists m, p, u, s. split; [|exact Hx].
    apply resolve_Some. repeat split.
    + eapply select_market_evolves; [|exact Em].
      eauto using evolves_trans.
    + eapply select_product_evolves; [|exact Ep].
      eauto using evolves_trans.
    + eapply select_unit_evolves; [|exact Eu].
      eauto using evolves_trans.
    + eapply lookup_source_evolves; [|exact Es]. exact Gx.
  - eauto using evolves_trans.
Qed.

(** A row that is stored is updated in place. *)
Lemma sync_row_stored (r : row) (db : database) :
  stored r db ->
  exists db', sync_row r db = (db', Ok false) /\ same_shape db db'.
Proof.
  intros (m & p & u & s & Hres & Hex).
  apply resolve_Some in Hres as (Hm & Hp & Hu & Hs).
  assert (Em : get_or_create_market r db = (db, Ok m)).
  { unfold get_or_create_market, bind, query. by rewrite Hm. }
  assert (Ep : get_or_create_product r db = (db, Ok p)).
  { unfold get_or_create_product, bind, query. by rewrite Hp. }
  assert (Eu : get_or_create_unit r db = (db, Ok u)).
  { unfold get_or_create_unit, bind, query. by rewrite Hu. }
  assert (Es : get_or_create_source r db = (db, Ok s)).
  { revert Hs. unfold FEWSDatabase.get_or_create_source, lookup_source.
    destruct (pd_isna _); [by intros [= <-]|].
    destruct (py_int _ _) as [n|]; [|discriminate].
    unfold bind, query.
    destruct (select_source _ db); [by intros [= <-]|discriminate]. }
  unfold FEWSDatabase.sync_row, bind. rewrite Em, Ep, Eu.
  fold get_or_create_source. rewrite Es.
  rewrite (upsert_price_observation_eq pd_to_datetime).
  rewrite existsb_map in Hex.
  unfold select_price_observation.
  destruct (List.find _ (price_observations db)) as [o|] eqn:Hf.
  - cbn [fmap option_fmap option_map]. eexists. split; [reflexivity|].
    unfold same_shape. rewrite update_keeps_keys. by repeat split.
  - apply find_none_iff in Hf.
    change (existsb (po_matches m p u (get r "period_date")
                       (get_default r "price_type" (PStr "Retail")))
              (price_observations db) = true) in Hex.
    congruence.
Qed.

(** Every row of the DataFrame goes through, one after the other. *)
Fixpoint all_ok (df : list row) (db : database) : Prop :=
  match df with
  | [] => True
  | r :: df' => exists db' b, sync_row r db = (db', Ok b) /\ all_ok df' db'
  end.

Lemma no_errors_all_ok (df : list row) (db : database) (i u k e : Z) :
  (fold_left sync_step df (db, stats_dict i u k e)).2 !! "errors" = Some e ->
  all_ok df db.
Proof.
  revert db i u. induction df as [|r df IH]; intros db i u; [done|].
  cbn [fold_left all_ok].
  destruct (sync_step_counts int_of_str pd_to_datetime r db i u k e)
    as (db1 & [[Hr ->] | [[Hr ->] | (x & Hr & ->)]]).
  - intros H. exists db1, true. split; [exact Hr|]. by apply IH in H.
  - intros H. exists db1, false. split; [exact Hr|]. by apply IH in H.
  - destruct (sync_loop_counts int_of_str pd_to_datetime df db1 i u k (e + 1))
      as (db' & i' & u' & e' & -> & _ & _ & _ & Hle).
    cbn [snd]. destruct (stats_dict_lookup i' u' k e') as (_ & _ & _ & ->).
    intros [=]. lia.
Qed.

Lemma first_pass_stores (df : list row) (db : database)
    (stats : gmap string Z) :
  all_ok df db ->
  (forall r, In r df ->
     get r "period_date" <> PNone
     /\ get_default r "price_type" (PStr "Retail") <> PNone) ->
  (forall r, In r df -> stored r (fold_left sync_step df (db, stats)).1)
  /\ evolves db (fold_left sync_step df (db, stats)).1.
Proof.
  revert db stats. induction df as [|r df IH]; intros db stats Hok Hkeys.
  - cbn. split; [intros ? []|apply evolves_refl].
  - destruct Hok as (db1 & b & Hr & Hok).
    destruct (Hkeys r (or_introl eq_refl)) as [Hd Ht].
    destruct (sync_row_stores r db db1 b Hd Ht Hr) as [Hst Hev].
    assert (Hstep : sync_step (db, stats) r
                    = (db1, if b then incr "inserted" stats
                            else incr "updated" stats)).
    { unfold FEWSDatabase.sync_step. by rewrite Hr. }
    cbn [fold_left]. rewrite Hstep.
    match goal with
    | |- context [fold_left _ df (db1, ?st)] =>
        destruct (IH db1 st Hok (fun x Hx => Hkeys x (or_intror Hx)))
          as [Hall Hev']
    end.
    split.
    + intros x [<-|Hx]; [|by apply Hall].
      eapply stored_evolves; [exact Hev'|exact Hst].
    + eapply evolves_trans; [exact Hev|exact Hev'].
Qed.

Lemma second_pass_updates (df : list row) (db : database) (i u k e : Z) :
  (forall r, In r df -> stored r db) ->
  exists db',
    fold_left sync_step df (db, stats_dict i u k e)
    = (db', stats_dict i (u + Z.of_nat (length df)) k e)
    /\ same_shape db db'.
Proof.
  revert db u. induction df as [|r df IH]; intros db u Hall.
  - exists db. cbn [fold_left length].
    replace (u + Z.of_nat 0) with u by lia.
    split; [reflexivity|apply same_shape_refl].
  - destruct (sync_row_stored r db (Hall r (or_introl eq_refl)))
      as (db1 & Hr & Hsh).
    assert (Hstep : sync_step (db, stats_dict i u k e) r
                    = (db1, stats_dict i (u + 1) k e)).
    { unfold FEWSDatabase.sync_step. by rewrite Hr, incr_updated. }
    cbn [fold_left]. rewrite Hstep.
    destruct (IH db1 (u + 1)) as (db' & Heq & Hsh').
    { intros x Hx. eapply stored_evolves.
      - apply same_shape_evolves. exact Hsh.
      - apply Hall. by right. }
    exists db'. rewrite Heq. split.
    + cbn [length]. rewrite Nat2Z.inj_succ. do 2 f_equal. lia.
    + eapply same_shape_trans; eauto.
Qed.

(** X15.  When every row of the DataFrame went through
    without error and carries a period date and a price type that are not
    NULL, synchronising the same DataFrame again right away inserts
    nothing, updates as many observations as there are rows, meets no
    error, and leaves the natural keys of the fact table and the dimension
    tables as they were. *)
Theorem sync_dataframe_again_only_updates (df : list row) (db : database) :
  let first := sync_dataframe df db in
  let second := sync_dataframe df first.1 in
  first.2 !! "errors" = Some 0 ->
  (forall r, In r df ->
     get r "period_date" <> PNone
     /\ get_default r "price_type" (PStr "Retail") <> PNone) ->
  second.2 !! "inserted" = Some 0
  /\ second.2 !! "updated" = Some (Z.of_nat (length df))
  /\ second.2 !! "errors" = Some 0
  /\ map natural_key (price_observations second.1)
     = map natural_key (price_observations first.1)
  /\ markets second.1 = markets first.1
  /\ products second.1 = products first.1
  /\ units second.1 = units first.1
  /\ data_sources second.1 = data_sources first.1.
Proof.
  cbv zeta. unfold FEWSDatabase.sync_dataframe.
  change initial_stats with (stats_dict 0 0 0 0).
  intros Herr Hkeys.
  apply no_errors_all_ok in Herr.
  destruct (first_pass_stores df db (stats_dict 0 0 0 0) Herr Hkeys)
    as [Hall _].
  destruct (second_pass_updates df _ 0 0 0 0 Hall)
    as (db2 & -> & (Hm & Hp & Hu & Hs & Hk)).
  cbn [fst snd].
  destruct (stats_dict_lookup 0 (0 + Z.of_nat (length df)) 0 0)
    as (-> & -> & _ & ->).
  repeat split; trivial; f_equal; lia.
Qed.

End Idempotence.

(** *** The import log and the watermark *)

Lemma latest_None (l : list import_entry) : latest l = None <-> l = [].
Proof.
  destruct l as [|e l]; simpl; [tauto|].
  split; [|discriminate].
  destruct (latest l) as [e'|]; [|discriminate].
  destruct (il_import_date e <? il_import_date e'); discriminate.
Qed.

Lemma latest_Some (l : list import_entry) (e : import_entry) :
  latest l = Some e ->
  In e l /\ forall e', In e' l -> il_import_date e' <= il_import_date e.
Proof.
  revert e. induction l as [|a l IH]; intros e; simpl; [discriminate|].
  destruct (latest l) as [e'|] eqn:Hl.
  - destruct (IH e' eq_refl) as [Hin Hmax].
    destruct (il_import_date a <? il_import_date e') eqn:Hlt;
      intros [= <-].
    + apply Z.ltb_lt in Hlt. split; [tauto|].
      intros x [<-|Hx]; [lia | auto].
    + apply Z.ltb_ge in Hlt. split; [tauto|].
      intros x [<-|Hx]; [lia|]. specialize (Hmax x Hx). lia.
  - apply latest_None in Hl. subst l. intros [= <-].
    split; [tauto|]. intros x [<-|[]]. lia.
Qed.

Lemma is_success_true (e : import_entry) :
  is_success e = true <-> il_status e = "success".
Proof. unfold is_success. apply String.eqb_eq. Qed.

Lemma successes_after_log_import (fetched : Z) (stats : gmap string Z)
    (start_date end_date : option string) (status : string)
    (msg : option string) (db : database) :
  status <> "success" ->
  List.filter is_success
    (import_log (log_import fetched stats start_date end_date status msg db))
  = List.filter is_success (import_log db).
Proof.
  intros Hst. unfold log_import. simpl.
  rewrite List.filter_app. simpl.
  unfold is_success at 2. simpl.
  apply String.eqb_neq in Hst. rewrite Hst. apply app_nil_r.
Qed.

Lemma log_import_failed_watermark (fetched : Z) (stats : gmap string Z)
    (start_date end_date : option string) (status : string)
    (msg : option string) (db : database) :
  status <> "success" ->
  get_last_sync_date
    (log_import fetched stats start_date end_date status msg db)
  = get_last_sync_date db.
Proof.
  intros Hst. unfold get_last_sync_date.
  by rewrite successes_after_log_import.
Qed.

Lemma get_last_sync_date_Some (db : database) (d : string) :
  get_last_sync_date db = Some d ->
  exists e, In e (import_log db) /\ il_status e = "success"
    /\ il_date_range_end e = Some d
    /\ forall e', In e' (import_log db) -> il_status e' = "success" ->
         il_import_date e' <= il_import_date e.
Proof.
  unfold get_last_sync_date.
  destruct (latest _) as [e|] eqn:Hl; [|discriminate].
  destruct (il_date_range_end e) as [d'|] eqn:Hd; [|discriminate].
  destruct (String.eqb d' ""); [discriminate|]. intros [= ->].
  apply latest_Some in Hl as [Hin Hmax].
  apply filter_In in Hin as [Hin Hs]. apply is_success_true in Hs.
  exists e. repeat split; trivial.
  intros e' Hin' Hs'. apply Hmax. apply filter_In.
  split; [exact Hin'|]. by apply is_success_true.
Qed.

Lemma get_last_sync_date_of_latest (db : database) (e0 : import_entry) :
  In e0 (import_log db) -> il_status e0 = "success" ->
  exists e, In e (import_log db) /\ il_status e = "success"
    /\ (forall e', In e' (import_log db) -> il_status e' = "success" ->
          il_import_date e' <= il_import_date e)
    /\ get_last_sync_date db =
         match il_date_range_end e with
         | Some d => if String.eqb d "" then None else Some d
         | None => None
         end.
Proof.
  intros Hin0 Hs0. unfold get_last_sync_date.
  destruct (latest _) as [e|] eqn:Hl.
  - apply latest_Some in Hl as [Hin Hmax].
    apply filter_In in Hin as [Hin Hs]. apply is_success_true in Hs.
    exists e. repeat split; trivial.
    intros e' Hin' Hs'. apply Hmax. apply filter_In.
    split; [exact Hin'|]. by apply is_success_true.
  - apply latest_None in Hl.
    assert (Hf : In e0 (List.filter is_success (import_log db))).
    { apply filter_In. split; [exact Hin0|]. by apply is_success_true. }
    rewrite Hl in Hf. destruct Hf.
Qed.

Lemma get_last_sync_date_no_success (db : database) :
  (forall e, In e (import_log db) -> il_status e <> "success") ->
  get_last_sync_date db = None.
Proof.
  intros Hno. unfold get_last_sync_date.
  destruct (latest _) as [e|] eqn:Hl; [|reflexivity].
  apply latest_Some in Hl as [Hin _].
  apply filter_In in Hin as [Hin Hs]. apply is_success_true in Hs.
  by apply Hno in Hin.
Qed.

(** *** The theorems at work on the sample data *)

Import Samples.

Lemma dimension_records_immutable_witness :
  (exists m', In m' (markets stocked_db)
     /\ sql_eq (m_fews_id m') (get rice_row "market_id") = true
     /\ get_or_create_market rice_row stocked_db = (stocked_db, Ok (m_id m')))
  /\ (exists p', In p' (products stocked_db)
     /\ sql_eq (p_name p') (get rice_row "product") = true
     /\ sql_eq (p_product_source p') (get rice_row "product_source") = true
     /\ get_or_create_product rice_row stocked_db
        = (stocked_db, Ok (p_id p')))
  /\ (exists u', In u' (units stocked_db)
     /\ sql_eq (u_name u') (get rice_row "unit") = true
     /\ get_or_create_unit rice_row stocked_db = (stocked_db, Ok (u_id u')))
  /\ (exists s', In s' (data_sources stocked_db)
     /\ sql_eq (s_fews_id s') (PInt 3) = true
     /\ get_or_create_source no_int rice_row stocked_db
        = (stocked_db, Ok (Some (s_id s')))).
Proof.
  destruct (dimension_records_immutable no_int rice_row stocked_db)
    as (Hm & Hp & Hu & Hs).
  split; [|split; [|split]].
  - apply (Hm hinche); [by left | reflexivity].
  - apply (Hp rice); [by left | reflexivity | reflexivity].
  - apply (Hu pound); [by left | reflexivity].
  - apply (Hs cnsa 3); [by left | reflexivity | reflexivity | reflexivity].
Defined.

(** C3 as stated fails: the row names market 7 Jacmel, the table names it
    Hinche, and after the merge the one record of that market is still
    named Hinche. *)
Lemma merge_leaves_existing_market_as_it_was :
  let db' := (get_or_create_market rice_row stocked_db).1 in
  get rice_row "market" = PStr "Jacmel"
  /\ markets db' = [hinche]
  /\ sql_eq (m_fews_id hinche) (get rice_row "market_id") = true
  /\ m_name hinche <> get rice_row "market".
Proof. cbv zeta. repeat split. discriminate. Qed.

Lemma sync_dataframe_has_no_rollback_witness :
  let db1 := (sync_dataframe no_int keep_datetime [rice_row] empty_db).1 in
  let stats1 := (sync_dataframe no_int keep_datetime [rice_row] empty_db).2 in
  let db2 := (sync_row no_int keep_datetime marketless_row db1).1 in
  sync_row no_int keep_datetime marketless_row db1 = (db2, Raise TypeError)
  /\ sync_dataframe no_int keep_datetime
       [rice_row; marketless_row; unsourced_row] empty_db
     = fold_left (sync_step no_int keep_datetime) [unsourced_row]
         (db2, incr "errors" stats1)
  /\ price_observations db2 = price_observations db1.
Proof.
  cbv zeta.
  assert (Hbad : sync_row no_int keep_datetime marketless_row
                   (sync_dataframe no_int keep_datetime [rice_row]
                      empty_db).1
                 = ((sync_row no_int keep_datetime marketless_row
                       (sync_dataframe no_int keep_datetime [rice_row]
                          empty_db).1).1,
                    Raise TypeError))
    by (vm_compute; reflexivity).
  split; [exact Hbad|].
  destruct (sync_dataframe_has_no_rollback no_int keep_datetime
              [rice_row] [unsourced_row] marketless_row empty_db _ _ Hbad)
    as (Hgo & _ & Hpo & _).
  split; [exact Hgo | exact Hpo].
Defined.


(** With a table that takes every row, [upsert_price_observation_on] is
    [upsert_price_observation]. *)
Lemma upsert_price_observation_on_every_row (r : row) (m p u : Z)
    (s : option Z) (db : database) :
  let out := upsert_price_observation keep_datetime r m p u s db in
  let out' := upsert_price_observation_on keep_datetime (fun _ _ => true)
                r m p u s db in
  out'.1 = out.1
  /\ out.2 = match out'.2 with
             | inr b => Ok b
             | inl _ => Raise TypeError
             end.
Proof.
  cbv zeta. rewrite upsert_price_observation_eq.
  unfold upsert_price_observation_on.
  by destruct (select_price_observation _ _ _ _ _ db).
Qed.




Lemma sync_dataframe_again_only_updates_witness :
  let first := sync_dataframe no_int keep_datetime [rice_row; unsourced_row]
                 empty_db in
  let second := sync_dataframe no_int keep_datetime
                  [rice_row; unsourced_row] first.1 in
  second.2 !! "inserted" = Some 0 /\ second.2 !! "updated" = Some 2.
Proof.
  cbv zeta.
  destruct (sync_dataframe_again_only_updates no_int keep_datetime
              [rice_row; unsourced_row] empty_db) as (Hi & Hu & _).
  - vm_compute. reflexivity.
  - intros r [<-|[<-|[]]]; split; intros H; vm_compute in H; discriminate.
  - split; [exact Hi | exact Hu].
Defined.

End FEWSDatabaseFacts.

(** ** Properties of the client *)

Module FEWSNETClientFacts.

Import FEWSNETClient Samples.

(** The pause of the loop after attempt number [attempt] failed with
    outcome [a]. *)
Definition backoff (a : attempt_outcome) (attempt : Z) : Z :=
  match a with
  | TimedOut => (attempt + 1) * 10
  | _ => (attempt + 1) * 5
  end.

(** [n] calls of [session.get], the first one being call number [k] of the
    session and attempt number [attempt] of the loop, with the pause of
    the loop between two calls. *)
Fixpoint expected_events (answers : nat -> attempt_outcome) (url : string)
    (params : row) (k : nat) (attempt : Z) (n : nat) : list event :=
  match n with
  | O => []
  | S O => [SessionGet url params]
  | S n' =>
      SessionGet url params :: Sleep (backoff (answers k) attempt)
      :: expected_events answers url params (S k) (attempt + 1) n'
  end.

Definition retryable (a : attempt_outcome) : Prop :=
  a = TimedOut \/ a = RequestFailed.

Section Retries.

Variable answers : nat -> attempt_outcome.

(** What a run of the loop adds to the events: calls of [session.get] with
    the URL and parameters given, and pauses; at least one call when there
    is an attempt to run. *)
Definition of_request (url : string) (params : row) (e : event) : Prop :=
  e = SessionGet url params \/ exists s, e = Sleep s.

Lemma attempts_events (url : string) (params : row) (format : string)
    (todo : list Z) (w : net) :
  exists new,
    events (attempts answers url params format todo w).1
    = (events w ++ new)%list
    /\ Forall (of_request url params) new
    /\ (todo <> [] -> In (SessionGet url params) new).
Proof.
  revert w. induction todo as [|attempt todo IH]; intros w.
  - exists []. cbn. rewrite app_nil_r. repeat split; [constructor | congruence].
  - cbn [attempts].
    assert (Hone : exists new,
               events (session_get url params w) = (events w ++ new)%list
               /\ Forall (of_request url params) new
               /\ In (SessionGet url params) new).
    { exists [SessionGet url params]. cbn. repeat split.
      - repeat constructor.
      - by left. }
    assert (Hmore : forall s,
               exists new,
                 events (attempts answers url params format todo
                           (time_sleep s (session_get url params w))).1
                 = (events w ++ new)%list
                 /\ Forall (of_request url params) new
                 /\ In (SessionGet url params) new).
    { intros s.
      destruct (IH (time_sleep s (session_get url params w)))
        as (new & Hev & Hall & _).
      exists ([SessionGet url params; Sleep s] ++ new)%list.
      rewrite Hev. cbn. rewrite <- !app_assoc. cbn. repeat split.
      - constructor; [by left|]. constructor; [right; eauto|]. exact Hall.
      - by left. }
    destruct (answers (calls w));
      [|destruct (attempt <? MAX_RETRIES - 1)
       |destruct (attempt <? MAX_RETRIES - 1)|];
      cbn [fst];
      try (destruct Hone as (new & ? & ? & ?); exists new; by repeat split);
      match goal with
      | |- context [time_sleep ?s _] =>
          destruct (Hmore s) as (new & ? & ? & ?); exists new;
          by repeat split
      end.
Qed.

Lemma make_request_events (endpoint : string) (params : row)
    (format : string) (w : net) :
  exists new,
    events (_make_request answers endpoint params format w).1
    = (events w ++ new)%list
    /\ Forall (of_request (BASE_URL +:+ "/" +:+ endpoint +:+ "/")
                 (<["format" := PStr format]> params)) new
    /\ In (SessionGet (BASE_URL +:+ "/" +:+ endpoint +:+ "/")
             (<["format" := PStr format]> params)) new.
Proof.
  unfold _make_request.
  destruct (attempts_events (BASE_URL +:+ "/" +:+ endpoint +:+ "/")
              (<["format" := PStr format]> params) format
              (range MAX_RETRIES) w) as (new & Hev & Hall & Hin).
  exists new. repeat split; trivial. apply Hin. discriminate.
Qed.

(** C6, as the code has it.  [_make_request] calls [session.get] at least
    once and at most [MAX_RETRIES] = 3 times, with the same URL and
    parameters; every call but the last one failed with a timeout or
    another request exception, and was followed by a pause of the loop
    itself (10 s times the attempt number after a timeout, 5 s times it
    otherwise); the last call decides the result: its body, parsed when
    the format is json, if it succeeded; the exception of the third call
    if that one failed too; at once any exception that is not a request
    exception. *)
Theorem make_request_retries (endpoint : string) (params : row)
    (format : string) (w : net) :
  let url := BASE_URL +:+ "/" +:+ endpoint +:+ "/" in
  let sent := <["format" := PStr format]> params in
  let out := _make_request answers endpoint params format w in
  exists n : nat,
    (1 <= n <= 3)%nat
    /\ calls out.1 = (calls w + n)%nat
    /\ events out.1 =
        (events w ++ expected_events answers url sent (calls w) 0 n)%list
    /\ (forall i, (i < n - 1)%nat -> retryable (answers (calls w + i)%nat))
    /\ match answers (calls w + (n - 1))%nat with
       | Responded r =>
           out.2 = inr (if String.eqb format "json"
                        then VJson (resp_json r) else VText (resp_text r))
       | TimedOut => n = 3%nat /\ out.2 = inl Timeout
       | RequestFailed => n = 3%nat /\ out.2 = inl RequestException
       | Crashed => out.2 = inl OtherException
       end.
Proof.
  cbv zeta. unfold _make_request.
  change (range MAX_RETRIES) with [0; 1; 2].
  set (url := BASE_URL +:+ "/" +:+ endpoint +:+ "/").
  set (sent := <["format" := PStr format]> params).
  assert (C0 : (0 <? MAX_RETRIES - 1) = true) by reflexivity.
  assert (C1 : (1 <? MAX_RETRIES - 1) = true) by reflexivity.
  assert (C2 : (2 <? MAX_RETRIES - 1) = false) by reflexivity.
  assert (H1 : (calls w + 1)%nat = S (calls w)) by lia.
  assert (H2 : (calls w + 2)%nat = S (S (calls w))) by lia.
  assert (H0 : (calls w + 0)%nat = calls w) by lia.
  assert (Hret : forall a, a = TimedOut \/ a = RequestFailed -> retryable a)
    by (intros a Ha; exact Ha).
  cbn [attempts]. rewrite C0.
  destruct (answers (calls w)) as [r0| | |] eqn:A0.
  all: try (exists 1%nat; cbn; rewrite ?H0, ?A0;
            repeat split; try lia; try reflexivity; intros i Hi; lia).
  all: cbn [attempts session_get time_sleep calls events]; rewrite ?C1;
    destruct (answers (S (calls w))) as [r1| | |] eqn:A1.
  all: try (exists 2%nat; cbn; rewrite ?H0, ?H1, ?A0, ?A1, <- ?app_assoc;
            repeat split; try lia; try reflexivity;
            intros i Hi; assert (i = 0%nat) as -> by lia;
            rewrite H0, A0; apply Hret; tauto).
  all: cbn [attempts session_get time_sleep calls events]; rewrite ?C2;
    destruct (answers (S (S (calls w)))) as [r2| | |] eqn:A2.
  all: exists 3%nat; cbn;
    rewrite ?H0, ?H1, ?H2, ?A0, ?A1, ?A2, <- ?app_assoc;
    repeat split; try lia; try reflexivity;
    intros i Hi; assert (i = 0%nat \/ i = 1%nat) as [-> | ->] by lia;
    rewrite ?H0, ?H1, ?A0, ?A1; apply Hret; tauto.
Qed.

End Retries.

(** C6 as stated fails: with a remote side that times out once, the
    function itself sleeps ten seconds and calls [session.get] again; the
    retry and its pause are its own code, not the library's. *)
Lemma make_request_retry_is_its_own :
  let body := Response [] "[]" in
  let out := _make_request (flaky body) "market" ∅ "json" (Net 0 []) in
  let url := "https://fdw.fews.net/api/market/" in
  let sent : row := <["format" := PStr "json"]> ∅ in
  events out.1 = [SessionGet url sent; Sleep 10; SessionGet url sent]
  /\ calls out.1 = 2%nat
  /\ out.2 = inr (VJson []).
Proof. cbv zeta. repeat split. Qed.

End FEWSNETClientFacts.

(** ** Properties of the calendar *)

Module CalendarFacts.

Import Calendar.

Lemma days_in_month_bounds (y m : Z) : 28 <= days_in_month y m <= 31.
Proof.
  unfold days_in_month.
  destruct (m =? 2); [destruct (is_leap y); lia|].
  destruct ((m =? 4) || (m =? 6) || (m =? 9) || (m =? 11)); lia.
Qed.

Lemma days_before_month_succ (y m : Z) :
  1 <= m <= 11 ->
  days_before_month y (m + 1) = days_before_month y m + days_in_month y m.
Proof.
  intros Hm. unfold days_before_month.
  replace (Z.to_nat (m + 1 - 1)) with (S (Z.to_nat (m - 1))) by lia.
  cbn [days_before_month_from].
  replace (Z.of_nat (S (Z.to_nat (m - 1)))) with m by lia.
  reflexivity.
Qed.

Lemma days_in_year (y : Z) :
  days_before_month y 12 + 31 = if is_leap y then 366 else 365.
Proof.
  unfold days_before_month. change (Z.to_nat (12 - 1)) with 11%nat.
  cbn [days_before_month_from].
  unfold days_in_month.
  repeat match goal with
         | |- context [Z.of_nat ?n =? ?k] =>
             let b := eval vm_compute in (Z.of_nat n =? k) in
             change (Z.of_nat n =? k) with b
         end.
  cbn [orb]. destruct (is_leap y); lia.
Qed.

Lemma days_before_year_succ (y : Z) :
  days_before_year (y + 1)
  = days_before_year y + (if is_leap y then 366 else 365).
Proof.
  unfold days_before_year, is_leap.
  replace (y + 1 - 1) with y by lia.
  destruct (Z.eqb_spec (y mod 4) 0) as [H4|H4];
    destruct (Z.eqb_spec (y mod 100) 0) as [H100|H100];
    destruct (Z.eqb_spec (y mod 400) 0) as [H400|H400];
    cbn [andb orb negb];
    Z.div_mod_to_equations; lia.
Qed.

(** [add_one_day] is the next day: the ordinal goes up by one and the date
    stays one that [datetime] can hold. *)
Lemma add_one_day_next (d d' : date) :
  valid d -> add_one_day d = Some d' ->
  toordinal d' = toordinal d + 1 /\ valid d'.
Proof.
  destruct d as [y m dd]. unfold valid, add_one_day, toordinal.
  cbn [year month day]. intros (Hy & Hm & Hd).
  destruct (Z.ltb_spec dd (days_in_month y m)) as [Hlt|Hge].
  - intros [= <-]. cbn [year month day]. split; [lia|]. repeat split; lia.
  - assert (dd = days_in_month y m) as -> by lia.
    destruct (Z.ltb_spec m 12) as [Hm12|Hm12].
    + intros [= <-]. cbn [year month day].
      rewrite days_before_month_succ by lia.
      pose proof (days_in_month_bounds y (m + 1)).
      split; [lia|]. repeat split; lia.
    + assert (m = 12) as -> by lia.
      destruct (Z.ltb_spec y 9999) as [Hy9|Hy9]; [|discriminate].
      intros [= <-]. cbn [year month day].
      rewrite days_before_year_succ.
      pose proof (days_in_year y) as Hyear.
      change (days_in_month y 12) with 31.
      change (days_before_month (y + 1) 1) with 0.
      split; [lia|]. repeat split; try lia.
      change (days_in_month (y + 1) 1) with 31. lia.
Qed.

(** *** ISO dates compare as strings the way they compare as dates *)

Lemma digit_compare (a b : Z) :
  Ascii.compare (digit a) (digit b) = (a mod 10 ?= b mod 10).
Proof.
  unfold Ascii.compare, digit.
  pose proof (Z.mod_pos_bound a 10 eq_refl) as Ha.
  pose proof (Z.mod_pos_bound b 10 eq_refl) as Hb.
  rewrite !N_ascii_embedding by lia.
  rewrite <- N2Z.inj_compare, !N2Z.inj_add, !Z2N.id by lia.
  apply Z.add_compare_mono_l.
Qed.

Lemma pad2_compare (a b : Z) (s t : string) :
  0 <= a < 100 -> 0 <= b < 100 ->
  String.compare (pad2 a s) (pad2 b t)
  = match a ?= b with
    | Eq => String.compare s t
    | c => c
    end.
Proof.
  intros Ha Hb. unfold pad2. cbn [String.compare].
  rewrite !digit_compare.
  destruct (Z.compare_spec ((a / 10) mod 10) ((b / 10) mod 10));
    destruct (Z.compare_spec (a mod 10) (b mod 10));
    destruct (Z.compare_spec a b);
    try reflexivity; exfalso; Z.div_mod_to_equations; lia.
Qed.

Lemma pad4_pad2 (a : Z) (s : string) :
  pad4 a s = pad2 (a / 100) (pad2 (a mod 100) s).
Proof.
  unfold pad4, pad2, digit.
  replace ((a / 100 / 10) mod 10) with ((a / 1000) mod 10)
    by (Z.div_mod_to_equations; lia).
  replace ((a mod 100 / 10) mod 10) with ((a / 10) mod 10)
    by (Z.div_mod_to_equations; lia).
  replace ((a mod 100) mod 10) with (a mod 10)
    by (Z.div_mod_to_equations; lia).
  reflexivity.
Qed.

Lemma pad4_compare (a b : Z) (s t : string) :
  0 <= a < 10000 -> 0 <= b < 10000 ->
  String.compare (pad4 a s) (pad4 b t)
  = match a ?= b with
    | Eq => String.compare s t
    | c => c
    end.
Proof.
  intros Ha Hb. rewrite !pad4_pad2.
  rewrite pad2_compare by (Z.div_mod_to_equations; lia).
  rewrite pad2_compare by (Z.div_mod_to_equations; lia).
  destruct (Z.compare_spec (a / 100) (b / 100));
    destruct (Z.compare_spec (a mod 100) (b mod 100));
    destruct (Z.compare_spec a b);
    try reflexivity; exfalso; Z.div_mod_to_equations; lia.
Qed.

(** On dates that [datetime] can hold, the order of the strings written
    by [strftime] is the order of the calendar. *)
Lemma strftime_ltb (a b : date) :
  valid a -> valid b ->
  String.ltb (strftime a) (strftime b) = date_ltb a b.
Proof.
  destruct a as [y1 m1 d1], b as [y2 m2 d2].
  unfold valid, String.ltb, strftime, date_ltb. cbn [year month day].
  intros (Hy1 & Hm1 & Hd1) (Hy2 & Hm2 & Hd2).
  pose proof (days_in_month_bounds y1 m1).
  pose proof (days_in_month_bounds y2 m2).
  rewrite pad4_compare by lia. cbn [String.compare].
  change (Ascii.compare "-" "-") with Eq. cbv iota.
  rewrite pad2_compare by lia. cbn [String.compare].
  change (Ascii.compare "-" "-") with Eq. cbv iota.
  rewrite pad2_compare by lia. cbn [String.compare].
  destruct (Z.compare_spec y1 y2);
    destruct (Z.compare_spec m1 m2);
    destruct (Z.compare_spec d1 d2);
    destruct (Z.ltb_spec y1 y2); destruct (Z.eqb_spec y1 y2);
    destruct (Z.ltb_spec m1 m2); destruct (Z.eqb_spec m1 m2);
    destruct (Z.ltb_spec d1 d2);
    try reflexivity; lia.
Qed.

End CalendarFacts.

(** ** Properties of the incremental synchronisation *)

Module SyncFacts.

Import FEWSDatabase FEWSNETClient Calendar Sync.
Import FEWSDatabaseFacts FEWSNETClientFacts CalendarFacts.

(** The request for prices over a window of dates. *)
Definition prices_url : string := "https://fdw.fews.net/api/marketpricefacts/".

Definition window_params (start_date end_date : string) : row :=
  <["format" := PStr "json"]>
    (<["end_date" := PStr end_date]>
       (<["start_date" := PStr start_date]>
          (<["country_code" := PStr "HT"]> ∅))).

Definition connection_url : string := "https://fdw.fews.net/api/market/".

Definition connection_params : row :=
  <["format" := PStr "json"]> (<["country_code" := PStr "HT"]> ∅).

Lemma strftime_nonempty (d : date) : String.eqb (strftime d) "" = false.
Proof. reflexivity. Qed.

Section Script.

Variable int_of_str : string -> option Z.
Variable pd_to_datetime : pyval -> option pyval.
Variable pd_DataFrame : value -> string + list row.
Variable str_exn : client_exn -> string.
Variable strptime : string -> option date.
Variable answers : nat -> attempt_outcome.
Variable today : date.

Local Abbreviation start_date_of := (start_date_of strptime).
Local Abbreviation incremental_sync :=
  (incremental_sync int_of_str pd_to_datetime pd_DataFrame str_exn strptime
     answers today).

Lemma start_date_of_nonempty (last_sync : option string) (s : string) :
  start_date_of last_sync = Some s -> String.eqb s "" = false.
Proof.
  unfold Sync.start_date_of.
  destruct last_sync as [l|]; [|by intros [= <-]].
  destruct (strptime l) as [d|]; [|discriminate].
  destruct (add_one_day d) as [d'|]; [|discriminate].
  intros [= <-]. apply strftime_nonempty.
Qed.

(** The requests of [test_connection] and of [get_market_prices]. *)
Lemma test_connection_events (w : net) :
  exists new,
    events (test_connection answers w).1 = (events w ++ new)%list
    /\ Forall (of_request connection_url connection_params) new.
Proof.
  unfold test_connection.
  destruct (make_request_events answers "market"
              (<["country_code" := PStr "HT"]> ∅) "json" w)
    as (new & Hev & Hall & _).
  exists new.
  destruct (_make_request _ _ _ _ _) as [w' [e|v]]; split; trivial.
Qed.

Lemma get_market_prices_events (start_date end_date : string) (w : net) :
  String.eqb start_date "" = false -> String.eqb end_date "" = false ->
  exists new,
    events (get_market_prices answers pd_DataFrame str_exn "HT"
              (Some start_date) (Some end_date) None None None w).1
    = (events w ++ new)%list
    /\ Forall (of_request prices_url (window_params start_date end_date)) new
    /\ In (SessionGet prices_url (window_params start_date end_date)) new.
Proof.
  intros Hs He. unfold get_market_prices, set_if_str, set_if_int.
  rewrite Hs, He.
  destruct (make_request_events answers "marketpricefacts"
              (<["end_date" := PStr end_date]>
                 (<["start_date" := PStr start_date]>
                    (<["country_code" := PStr "HT"]> ∅))) "json" w)
    as (new & Hev & Hall & Hin).
  exists new.
  destruct (_make_request _ _ _ _ _) as [w' [e|v]]; repeat split; trivial.
Qed.

(** The events of a whole run. *)
Lemma incremental_sync_events (db : database) (w : net) (start : string) :
  start_date_of (get_last_sync_date db) = Some start ->
  String.ltb (strftime today) start = false ->
  exists new1 new2,
    events (final_net (incremental_sync db w))
    = (events w ++ new1 ++ new2)%list
    /\ Forall (of_request connection_url connection_params) new1
    /\ Forall (of_request prices_url (window_params start (strftime today)))
         new2
    /\ ((test_connection answers w).2 = true ->
        In (SessionGet prices_url (window_params start (strftime today)))
          new2).
Proof.
  intros Hstart Hlt.
  unfold Sync.incremental_sync, create_tables. rewrite Hstart, Hlt.
  destruct (test_connection_events w) as (new1 & Hev1 & Hall1).
  destruct (test_connection answers w) as [w1 ok]. cbn [fst snd] in *.
  destruct ok.
  - destruct (get_market_prices_events start (strftime today) w1
                (start_date_of_nonempty _ _ Hstart) (strftime_nonempty today))
      as (new2 & Hev2 & Hall2 & Hin2).
    exists new1, new2.
    destruct (get_market_prices _ _ _ _ _ _ _ _ _ w1) as [w2 [e|df]];
      cbn [fst] in Hev2.
    + cbn [final_net]. rewrite Hev2, Hev1, app_assoc. by repeat split.
    + destruct (df_empty df); [|destruct (sync_dataframe _ _ df db)];
        cbn [final_net]; rewrite Hev2, Hev1, app_assoc; by repeat split.
  - exists new1, []. cbn [final_net]. rewrite Hev1, app_nil_r.
    repeat split; trivial; try constructor; discriminate.
Qed.

(** C2. [incremental_sync] bounds what it fetches by the watermark.
    Without a date from [get_last_sync_date], as when no successful sync
    is recorded, the window starts at 2005-01-01; with one, it starts at
    the day after it.  Every request
    the run sends is either the connection test or the request for prices
    from that start to today, and the latter is sent once the connection
    test has passed.  When the start is after today, as ISO strings and
    so as dates, the run returns with no request sent and the database as
    it was. *)
Theorem incremental_sync_window (db : database) (w : net) :
  let last_sync := get_last_sync_date db in
  let run := incremental_sync db w in
  (last_sync = None -> start_date_of last_sync = Some "2005-01-01")
  /\ ((forall e, In e (import_log db) -> il_status e <> "success") ->
      start_date_of last_sync = Some "2005-01-01")
  /\ (forall s d d',
        last_sync = Some s -> strptime s = Some d -> valid d ->
        add_one_day d = Some d' ->
        start_date_of last_sync = Some (strftime d')
        /\ toordinal d' = toordinal d + 1)
  /\ (exists new,
        events (final_net run) = (events w ++ new)%list
        /\ forall url params, In (SessionGet url params) new ->
             (url = connection_url /\ params = connection_params)
             \/ exists start,
                  start_date_of last_sync = Some start
                  /\ String.ltb (strftime today) start = false
                  /\ url = prices_url
                  /\ params = window_params start (strftime today))
  /\ (forall start,
        start_date_of last_sync = Some start ->
        String.ltb (strftime today) start = false ->
        (test_connection answers w).2 = true ->
        In (SessionGet prices_url (window_params start (strftime today)))
          (events (final_net run)))
  /\ (forall start,
        start_date_of last_sync = Some start ->
        String.ltb (strftime today) start = true ->
        run = Run db w Returned)
  /\ (forall ds,
        start_date_of last_sync = Some (strftime ds) ->
        valid ds -> valid today -> date_ltb today ds = true ->
        run = Run db w Returned).
Proof.
  cbv zeta.
  assert (Hafter : forall start,
             start_date_of (get_last_sync_date db) = Some start ->
             String.ltb (strftime today) start = true ->
             incremental_sync db w = Run db w Returned).
  { intros start Hstart Hlt.
    unfold Sync.incremental_sync, create_tables. by rewrite Hstart, Hlt. }
  split; [|split; [|split; [|split; [|split; [|split]]]]].
  - by intros ->.
  - intros Hno. by rewrite (get_last_sync_date_no_success db Hno).
  - intros s d d' -> Hd Hvalid Hnext. unfold Sync.start_date_of.
    rewrite Hd, Hnext. split; [reflexivity|].
    by destruct (add_one_day_next d d' Hvalid Hnext).
  - destruct (start_date_of (get_last_sync_date db)) as [start|] eqn:Hstart.
    + destruct (String.ltb (strftime today) start) eqn:Hlt.
      * rewrite (Hafter start eq_refl Hlt). exists []. cbn.
        rewrite app_nil_r. split; [reflexivity|]. intros ? ? [].
      * destruct (incremental_sync_events db w start Hstart Hlt)
          as (new1 & new2 & Hev & Hall1 & Hall2 & _).
        exists (new1 ++ new2)%list. split; [exact Hev|].
        intros url params Hin. apply in_app_or in Hin as [Hin|Hin].
        -- left. rewrite List.Forall_forall in Hall1.
           destruct (Hall1 _ Hin) as [[= -> ->]|[? [=]]]. by split.
        -- right. rewrite List.Forall_forall in Hall2.
           destruct (Hall2 _ Hin) as [[= -> ->]|[? [=]]].
           exists start. by repeat split.
    + unfold Sync.incremental_sync, create_tables. rewrite Hstart.
      exists []. cbn. rewrite app_nil_r. split; [reflexivity|].
      intros ? ? [].
  - intros start Hstart Hlt Hok.
    destruct (incremental_sync_events db w start Hstart Hlt)
      as (new1 & new2 & Hev & _ & _ & Hin).
    rewrite Hev. apply in_or_app. right. apply in_or_app. right. auto.
  - exact Hafter.
  - intros ds Hstart Hds Htoday Hlt. apply (Hafter _ Hstart).
    by rewrite strftime_ltb.
Qed.

(** C4. The watermark is the end date of a most recent successful entry
    of the import log: there is none without such an entry, and a date
    returned is the [date_range_end] of a successful entry that no other
    successful entry is more recent than.  Logging an import whose status
    is not [success] leaves it, and the start of the next window, as they
    were; so does every run of [incremental_sync] that ends otherwise than
    by returning. *)
Theorem failed_sync_keeps_watermark (db : database) :
  ((forall e, In e (import_log db) -> il_status e <> "success") ->
   get_last_sync_date db = None)
  /\ (forall e0, In e0 (import_log db) -> il_status e0 = "success" ->
      exists e, In e (import_log db) /\ il_status e = "success"
        /\ (forall e', In e' (import_log db) -> il_status e' = "success" ->
              il_import_date e' <= il_import_date e)
        /\ get_last_sync_date db =
             match il_date_range_end e with
             | Some d => if String.eqb d "" then None else Some d
             | None => None
             end)
  /\ (forall fetched stats start_date end_date status msg,
      status <> "success" ->
      let db' := log_import fetched stats start_date end_date status msg db in
      get_last_sync_date db' = get_last_sync_date db
      /\ start_date_of (get_last_sync_date db')
         = start_date_of (get_last_sync_date db))
  /\ (forall w,
      how (incremental_sync db w) <> Returned ->
      get_last_sync_date (final_db (incremental_sync db w))
      = get_last_sync_date db).
Proof.
  split; [|split; [|split]].
  - apply get_last_sync_date_no_success.
  - apply get_last_sync_date_of_latest.
  - intros fetched stats start_date end_date status msg Hst. cbv zeta.
    rewrite log_import_failed_watermark by exact Hst. by split.
  - intros w. unfold Sync.incremental_sync, create_tables.
    destruct (start_date_of (get_last_sync_date db)) as [start|];
      [|reflexivity].
    destruct (String.ltb (strftime today) start); [reflexivity|].
    destruct (test_connection answers w) as [w1 [|]]; [|reflexivity].
    destruct (get_market_prices _ _ _ _ _ _ _ _ _ w1) as [w2 [e|df]].
    + intros _. cbn [final_db].
      apply log_import_failed_watermark. discriminate.
    + destruct (df_empty df); [|destruct (sync_dataframe _ _ df db)];
        cbn [how]; congruence.
Qed.

End Script.

(** *** The theorems at work on the sample data *)

Import Samples.

Ltac valid_date :=
  unfold valid; cbn [year month day]; vm_compute;
  repeat split; discriminate.

Lemma incremental_sync_window_witness :
  let w := Net 0 [] in
  let sync := incremental_sync no_int keep_datetime frame_of exn_text
                iso_strptime steady in
  start_date_of iso_strptime (get_last_sync_date synced_db)
  = Some "2024-03-11"
  /\ sync (Date 2024 3 10) synced_db w = Run synced_db w Returned
  /\ In (SessionGet prices_url (window_params "2024-03-11" "2024-04-01"))
       (events (final_net (sync (Date 2024 4 1) synced_db w))).
Proof.
  cbv zeta.
  destruct (incremental_sync_window no_int keep_datetime frame_of exn_text
              iso_strptime steady (Date 2024 3 10) synced_db (Net 0 []))
    as (_ & _ & Hnext & _ & _ & Hafter & _).
  destruct (incremental_sync_window no_int keep_datetime frame_of exn_text
              iso_strptime steady (Date 2024 4 1) synced_db (Net 0 []))
    as (_ & _ & _ & _ & Hsent & _).
  assert (Hvalid : valid (Date 2024 3 10)) by valid_date.
  destruct (Hnext "2024-03-10" (Date 2024 3 10) (Date 2024 3 11)
              eq_refl eq_refl Hvalid eq_refl) as [Hstart _].
  split; [exact Hstart|]. split.
  - apply (Hafter "2024-03-11" Hstart). reflexivity.
  - apply (Hsent "2024-03-11" Hstart); reflexivity.
Defined.

Lemma failed_sync_keeps_watermark_witness :
  let w := Net 0 [] in
  let run := incremental_sync no_int keep_datetime frame_of exn_text
               iso_strptime failing (Date 2024 4 1) synced_db w in
  how run = SysExit 1
  /\ length (import_log (final_db run)) = 2%nat
  /\ get_last_sync_date (final_db run) = get_last_sync_date synced_db
  /\ get_last_sync_date
       (log_import 0 ∅ (Some "2024-03-11") (Some "2024-04-01") "failed"
          (Some "timeout") synced_db)
     = get_last_sync_date synced_db.
Proof.
  cbv zeta.
  destruct (failed_sync_keeps_watermark no_int keep_datetime frame_of
              exn_text iso_strptime failing (Date 2024 4 1) synced_db)
    as (_ & _ & Hlog & Hrun).
  split; [reflexivity|]. split; [reflexivity|]. split.
  - apply Hrun. vm_compute. discriminate.
  - apply (Hlog 0 ∅ (Some "2024-03-11") (Some "2024-04-01") "failed"
             (Some "timeout")). discriminate.
Defined.

End SyncFacts.

(** ** The full synchronisation of [sync_fews_db.py] *)

Module FullSync.

Import FEWSDatabase FEWSNETClient Calendar Sync.

Section Script.

Variable int_of_str : string -> option Z.
Variable pd_to_datetime : pyval -> option pyval.
Variable pd_DataFrame : value -> string + list row.
Variable str_exn : client_exn -> string.
Variable answers : nat -> attempt_outcome.
Variable today : date.

(** [full_sync]: the connection test, the request for everything since
    2005, and only then the database.  The statistics printed at the end
    are read, nothing more. *)
Definition full_sync (db : database) (w : net) : run :=
  match test_connection answers w with
  | (w, false) => Run db w (SysExit 1)
  | (w, true) =>
      let start_date := "2005-01-01" in
      let end_date := strftime today in
      match get_market_prices answers pd_DataFrame str_exn "HT"
              (Some start_date) (Some end_date) None None None w with
      | (w, inl _) => Run db w (SysExit 1)
      | (w, inr df) =>
          if df_empty df then Run db w Returned
          else
            let db := create_tables db in
            let (db, stats) :=
              sync_dataframe int_of_str pd_to_datetime df db in
            let db := log_import (len df) stats
                        (Some start_date) (Some end_date)
                        "success" None db in
            Run db w Returned
      end
  end.

End Script.

End FullSync.

(** ** More on the database operations *)

Module FEWSDatabaseMore.

Import FEWSDatabase FEWSDatabaseFacts Samples.

Lemma find_never {A} (f : A -> bool) (l : list A) :
  (forall x, f x = false) -> List.find f l = None.
Proof.
  intros Hf. induction l as [|a l IH]; simpl; [reflexivity|].
  by rewrite Hf.
Qed.

(** A NULL key finds nothing, whatever the table holds. *)
Lemma select_market_null (db : database) : select_market PNone db = None.
Proof.
  unfold select_market. rewrite find_never; [reflexivity|].
  intros m. apply sql_eq_null_r.
Qed.

Lemma select_product_null (n c : pyval) (db : database) :
  n = PNone \/ c = PNone -> select_product n c db = None.
Proof.
  intros H. unfold select_product. rewrite find_never; [reflexivity|].
  intros p. destruct H as [-> | ->]; rewrite sql_eq_null_r;
    [reflexivity | apply andb_false_r].
Qed.

Lemma select_unit_null (db : database) : select_unit PNone db = None.
Proof.
  unfold select_unit. rewrite find_never; [reflexivity|].
  intros u. apply sql_eq_null_r.
Qed.

(** The dimension operations on markets, products and units raise nothing
    but the TypeError of [result[0]] on an empty result. *)
Lemma get_or_create_market_raises (r : row) (db db' : database) (x : exn) :
  get_or_create_market r db = (db', Raise x) -> x = TypeError.
Proof.
  unfold get_or_create_market, bind, query, execute, first_column, ret,
    raise.
  destruct (select_market _ db); cbv beta iota zeta; [discriminate|].
  destruct (select_market _ (insert_market _ _)); cbv beta iota zeta;
    [discriminate | by intros [=]].
Qed.

Lemma get_or_create_product_raises (r : row) (db db' : database) (x : exn) :
  get_or_create_product r db = (db', Raise x) -> x = TypeError.
Proof.
  unfold get_or_create_product, bind, query, execute, first_column, ret,
    raise.
  destruct (select_product _ _ db); cbv beta iota zeta; [discriminate|].
  destruct (select_product _ _ (insert_product _ _)); cbv beta iota zeta;
    [discriminate | by intros [=]].
Qed.

Lemma get_or_create_market_null (r : row) (db : database) :
  get r "market_id" = PNone ->
  exists db', get_or_create_market r db = (db', Raise TypeError).
Proof.
  intros Hk.
  unfold get_or_create_market, bind, query, execute, first_column, ret,
    raise.
  rewrite Hk, !select_market_null. cbv beta iota zeta. eauto.
Qed.

Lemma get_or_create_product_null (r : row) (db : database) :
  get r "product" = PNone \/ get r "product_source" = PNone ->
  exists db', get_or_create_product r db = (db', Raise TypeError).
Proof.
  intros Hk.
  unfold get_or_create_product, bind, query, execute, first_column, ret,
    raise.
  rewrite !(select_product_null _ _ _ Hk). cbv beta iota zeta. eauto.
Qed.

Lemma get_or_create_unit_null (r : row) (db : database) :
  get r "unit" = PNone ->
  exists db', get_or_create_unit r db = (db', Raise TypeError).
Proof.
  intros Hk.
  unfold get_or_create_unit, bind, query, execute, first_column, ret, raise.
  rewrite Hk, !select_unit_null. cbv beta iota zeta. eauto.
Qed.

Section Rows.

Variable int_of_str : string -> option Z.
Variable pd_to_datetime : pyval -> option pyval.

Local Abbreviation upsert_price_observation :=
  (upsert_price_observation pd_to_datetime).
Local Abbreviation get_or_create_source := (get_or_create_source int_of_str).
Local Abbreviation sync_row := (sync_row int_of_str pd_to_datetime).
Local Abbreviation sync_step := (sync_step int_of_str pd_to_datetime).
Local Abbreviation sync_dataframe :=
  (sync_dataframe int_of_str pd_to_datetime).

(** X1. A row whose market id, product name, product source or unit is
    [None], the key being absent from the row or its cell holding [None],
    never reaches the fact table: [None] is bound as NULL, the lookup
    finds nothing before and after the INSERT, and [result[0]] ends the
    try block in a TypeError before the upsert; the row is counted under
    [errors], and the observations are as they were.  The statement is
    about [None] only: a NaN cell is a value of its own, which the lookup
    compares as the engine does. *)
Theorem row_without_dimension_key_is_an_error (r : row) (db : database) :
  get r "market_id" = PNone \/ get r "product" = PNone
  \/ get r "product_source" = PNone \/ get r "unit" = PNone ->
  exists db',
    sync_row r db = (db', Raise TypeError)
    /\ price_observations db' = price_observations db
    /\ forall stats, sync_step (db, stats) r = (db', incr "errors" stats).
Proof.
  intros Hk.
  assert (Hraise : exists db', sync_row r db = (db', Raise TypeError)).
  { unfold FEWSDatabase.sync_row, bind.
    destruct (get_or_create_market r db) as [db1 [m|x]] eqn:Em.
    - destruct (get_or_create_product r db1) as [db2 [p|x]] eqn:Ep.
      + destruct Hk as [Hk | [Hk | [Hk | Hk]]].
        * destruct (get_or_create_market_null r db Hk) as [d Hd].
          congruence.
        * destruct (get_or_create_product_null r db1 (or_introl Hk))
            as [d Hd]. congruence.
        * destruct (get_or_create_product_null r db1 (or_intror Hk))
            as [d Hd]. congruence.
        * destruct (get_or_create_unit_null r db2 Hk) as [d ->]. eauto.
      + apply get_or_create_product_raises in Ep as ->. eauto.
    - apply get_or_create_market_raises in Em as ->. eauto. }
  destruct Hraise as [db' Hrow]. exists db'.
  split; [exact Hrow|]. split.
  - by destruct (sync_row_raise_grows int_of_str pd_to_datetime
                   _ _ _ _ Hrow) as [Hpo _].
  - intros stats. unfold FEWSDatabase.sync_step. by rewrite Hrow.
Qed.

(** X2. Get-or-create is idempotent: when an operation on a dimension
    table has returned an id, the same call on the resulting database
    returns the same id and changes nothing. *)
Theorem get_or_create_twice (r : row) (db db' : database) :
  (forall m, get_or_create_market r db = (db', Ok m) ->
             get_or_create_market r db' = (db', Ok m))
  /\ (forall p, get_or_create_product r db = (db', Ok p) ->
                get_or_create_product r db' = (db', Ok p))
  /\ (forall u, get_or_create_unit r db = (db', Ok u) ->
                get_or_create_unit r db' = (db', Ok u))
  /\ (forall s, get_or_create_source r db = (db', Ok s) ->
                get_or_create_source r db' = (db', Ok s)).
Proof.
  split; [|split; [|split]].
  - intros m H. apply get_or_create_market_found in H.
    unfold get_or_create_market, bind, query. by rewrite H.
  - intros p H. apply get_or_create_product_found in H.
    unfold get_or_create_product, bind, query. by rewrite H.
  - intros u H. apply get_or_create_unit_found in H.
    unfold get_or_create_unit, bind, query. by rewrite H.
  - intros s H. apply get_or_create_source_found in H. revert H.
    unfold FEWSDatabase.get_or_create_source, lookup_source.
    destruct (pd_isna _); [by intros [= <-]|].
    destruct (py_int _ _) as [n|]; [|discriminate].
    unfold bind, query.
    destruct (select_source _ db'); [by intros [= <-]|discriminate].
Qed.

(** X3. An observation just upserted under a complete natural key is
    found again: a second upsert of a row with the same period date and
    price type, for the same market, product and unit, answers [False]
    and leaves the number of observations and their natural keys as the
    first one left them. *)
Theorem upsert_then_upsert_updates (r r' : row) (m p u : Z)
    (s s' : option Z) (db : database) :
  get r "period_date" <> PNone ->
  get_default r "price_type" (PStr "Retail") <> PNone ->
  get r' "period_date" = get r "period_date" ->
  get_default r' "price_type" (PStr "Retail")
  = get_default r "price_type" (PStr "Retail") ->
  let db1 := (upsert_price_observation r m p u s db).1 in
  let out := upsert_price_observation r' m p u s' db1 in
  out.2 = Ok false
  /\ map natural_key (price_observations out.1)
     = map natural_key (price_observations db1)
  /\ length (price_observations out.1) = length (price_observations db1).
Proof.
  intros Hd Ht Hd' Ht'. cbv zeta.
  pose proof (upsert_stores pd_to_datetime r m p u s db Hd Ht) as Hex.
  rewrite existsb_map in Hex.
  change (existsb (po_matches m p u (get r "period_date")
                     (get_default r "price_type" (PStr "Retail")))
            (price_observations (upsert_price_observation r m p u s db).1)
          = true) in Hex.
  rewrite (upsert_price_observation_eq pd_to_datetime r').
  rewrite Hd', Ht'. unfold select_price_observation.
  destruct (List.find _ _) as [o|] eqn:Hf.
  - cbn [fmap option_fmap option_map fst snd].
    split; [reflexivity|].
    assert (Hkeys := update_keeps_keys r' (parse_modified pd_to_datetime r')
                       (po_id o) (upsert_price_observation r m p u s db).1).
    split; [exact Hkeys|].
    by rewrite <- (length_map natural_key), Hkeys, length_map.
  - apply find_none_iff in Hf. congruence.
Qed.

(** What one row does to the number of observations and to the log. *)
Lemma grows_effect (db db' : database) :
  grows db db' -> clock db' = clock db ->
  evolves db db'
  /\ import_log db' = import_log db
  /\ clock db <= clock db'
  /\ Z.of_nat (length (price_observations db'))
     = Z.of_nat (length (price_observations db)) + 0.
Proof.
  intros G Hc. pose proof (grows_evolves _ _ G) as Ge.
  destruct G as (Hp & Hl & _).
  split; [exact Ge|]. split; [exact Hl|]. split; [lia|].
  rewrite Hp. lia.
Qed.

Lemma get_or_create_market_clock (r : row) (db : database) :
  clock (get_or_create_market r db).1 = clock db.
Proof.
  unfold get_or_create_market, bind, query, execute, first_column, ret,
    raise.
  destruct (select_market _ db); [reflexivity|].
  by destruct (select_market _ (insert_market _ _)).
Qed.

Lemma get_or_create_product_clock (r : row) (db : database) :
  clock (get_or_create_product r db).1 = clock db.
Proof.
  unfold get_or_create_product, bind, query, execute, first_column, ret,
    raise.
  destruct (select_product _ _ db); [reflexivity|].
  by destruct (select_product _ _ (insert_product _ _)).
Qed.

Lemma get_or_create_unit_clock (r : row) (db : database) :
  clock (get_or_create_unit r db).1 = clock db.
Proof.
  unfold get_or_create_unit, bind, query, execute, first_column, ret, raise.
  destruct (select_unit _ db); [reflexivity|].
  by destruct (select_unit _ (insert_unit _ _)).
Qed.

Lemma get_or_create_source_clock (r : row) (db : database) :
  clock (get_or_create_source r db).1 = clock db.
Proof.
  unfold FEWSDatabase.get_or_create_source.
  destruct (pd_isna _); [reflexivity|].
  destruct (py_int _ _); [|reflexivity].
  unfold bind, query, execute, first_column, ret, raise.
  destruct (select_source _ db); [reflexivity|].
  by destruct (select_source _ (insert_source _ _)).
Qed.

Lemma sync_row_effect (r : row) (db db' : database) (res : result bool) :
  sync_row r db = (db', res) ->
  evolves db db'
  /\ import_log db' = import_log db
  /\ clock db <= clock db'
  /\ Z.of_nat (length (price_observations db'))
     = Z.of_nat (length (price_observations db))
       + match res with Ok true => 1 | _ => 0 end.
Proof.
  unfold FEWSDatabase.sync_row, bind.
  pose proof (get_or_create_market_grows r db) as Gm.
  pose proof (get_or_create_market_clock r db) as Cm.
  destruct (get_or_create_market r db) as [db1 [m|e1]]; cbn [fst] in *.
  2: { intros [= <- <-]. by apply grows_effect. }
  pose proof (grows_trans _ _ _ Gm (get_or_create_product_grows r db1))
    as Gp.
  pose proof (get_or_create_product_clock r db1) as Cp.
  destruct (get_or_create_product r db1) as [db2 [p|e2]]; cbn [fst] in *.
  2: { intros [= <- <-]. apply grows_effect; [exact Gp | congruence]. }
  pose proof (grows_trans _ _ _ Gp (get_or_create_unit_grows r db2)) as Gu.
  pose proof (get_or_create_unit_clock r db2) as Cu.
  destruct (get_or_create_unit r db2) as [db3 [u|e3]]; cbn [fst] in *.
  2: { intros [= <- <-]. apply grows_effect; [exact Gu | congruence]. }
  pose proof (grows_trans _ _ _ Gu
                (get_or_create_source_grows int_of_str r db3)) as Gs.
  pose proof (get_or_create_source_clock r db3) as Cs.
  destruct (get_or_create_source r db3) as [db4 [s|e4]]; cbn [fst] in *.
  2: { intros [= <- <-]. apply grows_effect; [exact Gs | congruence]. }
  destruct (grows_effect db db4 Gs ltac:(congruence))
    as (Ge & Hl & Hc & Hn).
  pose proof (upsert_evolves pd_to_datetime r m p u s db4) as Gx.
  rewrite (upsert_price_observation_eq pd_to_datetime) in *.
  destruct (select_price_observation _ _ _ _ _ db4) as [id|];
    cbn [fst] in Gx; intros [= <- <-].
  - split; [eauto using evolves_trans|]. split; [exact Hl|].
    split; [cbn; lia|]. cbn. rewrite length_map. lia.
  - split; [eauto using evolves_trans|]. split; [exact Hl|].
    split; [cbn; lia|]. cbn. rewrite length_app. cbn. lia.
Qed.

(** The loop, from any counts: what it adds to them does not depend on
    where they start. *)
Lemma sync_loop_shift (df : list row) (db : database) :
  exists db' i u e,
    0 <= i /\ 0 <= u /\ 0 <= e
    /\ i + u + e = Z.of_nat (length df)
    /\ (forall a b k c,
          fold_left sync_step df (db, stats_dict a b k c)
          = (db', stats_dict (a + i) (b + u) k (c + e)))
    /\ evolves db db'
    /\ import_log db' = import_log db
    /\ clock db <= clock db'
    /\ Z.of_nat (length (price_observations db'))
       = Z.of_nat (length (price_observations db)) + i.
Proof.
  revert db. induction df as [|r df IH]; intros db.
  - exists db, 0, 0, 0.
    split; [lia|]. split; [lia|]. split; [lia|]. split; [cbn; lia|].
    split; [|split; [apply evolves_refl|split; [reflexivity|split; lia]]].
    intros a b k c. cbn. by rewrite !Z.add_0_r.
  - destruct (sync_row r db) as [db1 res] eqn:Hrow.
    destruct (sync_row_effect r db db1 res Hrow) as (He & Hl & Hc & Hn).
    destruct (IH db1) as (db' & i & u & e & Hi & Hu & Hee & Hsum & Hfold
                          & He' & Hl' & Hc' & Hn').
    assert (Hev : evolves db db') by eauto using evolves_trans.
    assert (Hlog : import_log db' = import_log db) by congruence.
    assert (Hlen : Z.of_nat (length (r :: df)) = 1 + Z.of_nat (length df))
      by (cbn [length]; lia).
    destruct res as [[|]|x].
    + exists db', (1 + i), u, e.
      split; [lia|]. split; [lia|]. split; [lia|]. split; [lia|].
      split; [|split; [exact Hev|split; [exact Hlog|split; lia]]].
      intros a b k c. cbn [fold_left]. unfold FEWSDatabase.sync_step at 2.
      rewrite Hrow, incr_inserted, Hfold. do 2 f_equal. lia.
    + exists db', i, (1 + u), e.
      split; [lia|]. split; [lia|]. split; [lia|]. split; [lia|].
      split; [|split; [exact Hev|split; [exact Hlog|split; lia]]].
      intros a b k c. cbn [fold_left]. unfold FEWSDatabase.sync_step at 2.
      rewrite Hrow, incr_updated, Hfold. do 2 f_equal. lia.
    + exists db', i, u, (1 + e).
      split; [lia|]. split; [lia|]. split; [lia|]. split; [lia|].
      split; [|split; [exact Hev|split; [exact Hlog|split; lia]]].
      intros a b k c. cbn [fold_left]. unfold FEWSDatabase.sync_step at 2.
      rewrite Hrow, incr_errors, Hfold. do 2 f_equal. lia.
Qed.

(** X4. The count under [inserted] is the number of observations the
    call has added: the fact table has that many rows more than before,
    the natural keys and the dimension rows it had are still there in
    their places, and the import log is not touched. *)
Theorem sync_dataframe_inserted_is_growth (df : list row) (db : database) :
  let out := sync_dataframe df db in
  exists inserted,
    out.2 !! "inserted" = Some inserted
    /\ 0 <= inserted <= Z.of_nat (length df)
    /\ Z.of_nat (length (price_observations out.1))
       = Z.of_nat (length (price_observations db)) + inserted
    /\ evolves db out.1
    /\ import_log out.1 = import_log db.
Proof.
  cbv zeta. unfold FEWSDatabase.sync_dataframe.
  change initial_stats with (stats_dict 0 0 0 0).
  destruct (sync_loop_shift df db)
    as (db' & i & u & e & Hi & Hu & He & Hsum & Hfold & Hev & Hl & _ & Hn).
  rewrite Hfold. cbn [fst snd]. exists i.
  destruct (stats_dict_lookup (0 + i) (0 + u) 0 (0 + e)) as (-> & _).
  split; [f_equal; lia|]. split; [lia|].
  split; [exact Hn|]. split; [exact Hev | exact Hl].
Qed.

(** X5. Synchronising a DataFrame in two batches, one after the other,
    leaves the database that synchronising it whole leaves, and each
    count of the whole is the sum of the counts of the batches. *)
Theorem sync_dataframe_in_two_batches (df1 df2 : list row) (db : database) :
  let first := sync_dataframe df1 db in
  let second := sync_dataframe df2 first.1 in
  let whole := sync_dataframe (df1 ++ df2) db in
  whole.1 = second.1
  /\ exists i1 u1 e1 i2 u2 e2,
       first.2 = stats_dict i1 u1 0 e1
       /\ second.2 = stats_dict i2 u2 0 e2
       /\ whole.2 = stats_dict (i1 + i2) (u1 + u2) 0 (e1 + e2).
Proof.
  cbv zeta. unfold FEWSDatabase.sync_dataframe.
  change initial_stats with (stats_dict 0 0 0 0).
  rewrite fold_left_app.
  destruct (sync_loop_shift df1 db)
    as (db1 & i1 & u1 & e1 & _ & _ & _ & _ & Hf1 & _).
  rewrite Hf1. cbn [fst].
  destruct (sync_loop_shift df2 db1)
    as (db2 & i2 & u2 & e2 & _ & _ & _ & _ & Hf2 & _).
  rewrite !Hf2. cbn [fst snd]. split; [reflexivity|].
  exists i1, u1, e1, i2, u2, e2. by rewrite !Z.add_0_l.
Qed.

(** The natural keys with a period date and a price type, in table
    order. *)
Definition key_complete (k : Z * Z * Z * pyval * pyval) : bool :=
  let '(_, _, _, d, t) := k in
  negb (bool_decide (d = PNone)) && negb (bool_decide (t = PNone)).

Definition complete_keys (db : database) : list (Z * Z * Z * pyval * pyval) :=
  List.filter key_complete (map natural_key (price_observations db)).

Lemma NoDup_snoc {A} (l : list A) (x : A) :
  List.NoDup l -> ~ In x l -> List.NoDup (l ++ [x]).
Proof.
  induction l as [|a l IH]; intros Hnd Hx; cbn.
  - constructor; [intros [] | constructor].
  - apply List.NoDup_cons_iff in Hnd as [Ha Hnd].
    apply List.NoDup_cons_iff. split.
    + rewrite in_app_iff. intros [H|[H|[]]]; [tauto|].
      apply Hx. by left.
    + apply IH; [exact Hnd|]. intros H. apply Hx. by right.
Qed.

Lemma key_matches_self (m p u : Z) (d t : pyval) :
  key_complete (m, p, u, d, t) = true ->
  key_matches m p u d t (m, p, u, d, t) = true.
Proof.
  unfold key_complete, key_matches.
  rewrite andb_true_iff, !negb_true_iff, !bool_decide_eq_false.
  intros [Hd Ht]. by rewrite !Z.eqb_refl, !sql_eq_refl.
Qed.

Lemma upsert_keeps_keys_distinct (r : row) (m p u : Z) (s : option Z)
    (db : database) :
  List.NoDup (complete_keys db) ->
  List.NoDup (complete_keys (upsert_price_observation r m p u s db).1).
Proof.
  intros Hnd. unfold complete_keys in *.
  rewrite (upsert_price_observation_eq pd_to_datetime).
  unfold select_price_observation.
  destruct (List.find _ (price_observations db)) as [o|] eqn:Hf;
    cbn [fmap option_fmap option_map fst].
  - by rewrite update_keeps_keys.
  - unfold insert_price_observation. cbn -[key_complete].
    rewrite map_app, List.filter_app. cbn -[key_complete].
    destruct (key_complete _) eqn:Hc; [|by rewrite app_nil_r].
    apply NoDup_snoc; [exact Hnd|].
    intros Hin. apply filter_In in Hin as [Hin _].
    apply in_map_iff in Hin as (o & Hkey & Ho).
    apply find_none_iff in Hf.
    assert (Hex : existsb (po_matches m p u (get r "period_date")
                             (get_default r "price_type" (PStr "Retail")))
                    (price_observations db) = true).
    { apply existsb_exists. exists o. split; [exact Ho|].
      rewrite po_matches_key, Hkey. by apply key_matches_self. }
    congruence.
Qed.

Lemma sync_row_keeps_keys_distinct (r : row) (db : database) :
  List.NoDup (complete_keys db) ->
  List.NoDup (complete_keys (sync_row r db).1).
Proof.
  intros Hnd. unfold FEWSDatabase.sync_row, bind.
  assert (Hsame : forall d d', grows d d' ->
                    List.NoDup (complete_keys d) ->
                    List.NoDup (complete_keys d')).
  { intros d d' (Hp & _). unfold complete_keys. by rewrite Hp. }
  pose proof (get_or_create_market_grows r db) as Gm.
  destruct (get_or_create_market r db) as [db1 [m|e1]]; cbn [fst] in *;
    [|eauto].
  pose proof (grows_trans _ _ _ Gm (get_or_create_product_grows r db1))
    as Gp.
  destruct (get_or_create_product r db1) as [db2 [p|e2]]; cbn [fst] in *;
    [|eauto].
  pose proof (grows_trans _ _ _ Gp (get_or_create_unit_grows r db2)) as Gu.
  destruct (get_or_create_unit r db2) as [db3 [u|e3]]; cbn [fst] in *;
    [|eauto].
  pose proof (grows_trans _ _ _ Gu
                (get_or_create_source_grows int_of_str r db3)) as Gs.
  destruct (get_or_create_source r db3) as [db4 [s|e4]]; cbn [fst] in *;
    [|eauto].
  apply upsert_keeps_keys_distinct. eauto.
Qed.

(** X6. The synchronisation never stores a complete natural key twice:
    when no two observations share a natural key whose period date and
    price type are not NULL, that is still so after [sync_dataframe],
    whatever the DataFrame holds and whichever rows raise. *)
Theorem sync_dataframe_keeps_keys_distinct (df : list row) (db : database) :
  List.NoDup (complete_keys db) ->
  List.NoDup (complete_keys (sync_dataframe df db).1).
Proof.
  unfold FEWSDatabase.sync_dataframe. generalize initial_stats.
  revert db. induction df as [|r df IH]; intros db stats Hnd; [exact Hnd|].
  cbn [fold_left].
  assert (Hstep : exists stats',
             sync_step (db, stats) r = ((sync_row r db).1, stats')).
  { unfold FEWSDatabase.sync_step.
    destruct (sync_row r db) as [db1 [b|x]]; eauto. }
  destruct Hstep as [stats' ->].
  apply IH. by apply sync_row_keeps_keys_distinct.
Qed.

(** X14. Of two price rows with the same complete natural key, the first
    one being new to the table, the second one wins on the values and the
    first one on the rest: after both upserts the table has one row more,
    whose value, exchange rate, common prices, collection status and
    modification time are those of the second row, and whose source,
    start date, currency and data series are still those of the first.
    The next id of the sequence is assumed unused. *)
Theorem upsert_last_values_win (r r' : row) (m p u : Z) (s s' : option Z)
    (db : database) :
  let d := get r "period_date" in
  let t := get_default r "price_type" (PStr "Retail") in
  d <> PNone -> t <> PNone ->
  get r' "period_date" = d ->
  get_default r' "price_type" (PStr "Retail") = t ->
  existsb (po_matches m p u d t) (price_observations db) = false ->
  (forall x, In x (price_observations db) ->
             po_id x <> seq_price_observations db) ->
  let db2 := (upsert_price_observation r' m p u s'
                (upsert_price_observation r m p u s db).1).1 in
  exists o,
    price_observations db2 = (price_observations db ++ [o])%list
    /\ natural_key o = (m, p, u, d, t)
    /\ po_value o = get r' "value"
    /\ po_exchange_rate o = get r' "exchange_rate"
    /\ po_common_unit_price o = get r' "common_unit_price"
    /\ po_common_currency_price o = get r' "common_currency_price"
    /\ po_collection_status o = get r' "collection_status"
    /\ po_api_modified_at o = parse_modified pd_to_datetime r'
    /\ po_source_id o = s
    /\ po_start_date o = get r "start_date"
    /\ po_currency o = get_default r "currency" (PStr "HTG")
    /\ po_fews_dataseries_id o = get r "dataseries".
Proof.
  cbv zeta. intros Hd Ht Hd' Ht' Hnew Hfresh.
  rewrite (upsert_price_observation_eq pd_to_datetime r').
  rewrite (upsert_price_observation_eq pd_to_datetime r).
  rewrite Hd', Ht'. unfold select_price_observation.
  apply find_none_iff in Hnew. rewrite Hnew.
  cbn [fmap option_fmap option_map fst].
  unfold insert_price_observation at 1.
  cbn [price_observations with_price_observations].
  rewrite find_snoc, Hnew.
  assert (Hself : po_matches m p u (get r "period_date")
                    (get_default r "price_type" (PStr "Retail"))
                    (new_observation r m p u s (get r "period_date")
                       (get_default r "price_type" (PStr "Retail"))
                       (parse_modified pd_to_datetime r)
                       (seq_price_observations db) (clock db)) = true).
  { unfold po_matches, new_observation. cbn.
    by rewrite !Z.eqb_refl, !sql_eq_refl. }
  rewrite Hself. cbn [fmap option_fmap option_map fst].
  unfold update_price_observation, insert_price_observation.
  cbn [price_observations with_price_observations po_id new_observation].
  rewrite map_app. cbn [map]. rewrite Z.eqb_refl.
  eexists. split.
  - f_equal. rewrite <- (map_id (price_observations db)) at 2.
    apply map_ext_in. intros x Hx.
    destruct (Z.eqb_spec (po_id x) (seq_price_observations db)) as [E|_];
      [by apply Hfresh in Hx | reflexivity].
  - by repeat split.
Qed.

End Rows.

(** *** The theorems at work on the sample data *)

Lemma row_without_dimension_key_is_an_error_witness :
  exists db',
    sync_row no_int keep_datetime marketless_row stocked_db
    = (db', Raise TypeError)
    /\ price_observations db' = price_observations stocked_db
    /\ forall stats,
         sync_step no_int keep_datetime (stocked_db, stats) marketless_row
         = (db', incr "errors" stats).
Proof.
  apply (row_without_dimension_key_is_an_error no_int keep_datetime
           marketless_row stocked_db).
  left. reflexivity.
Defined.

Lemma get_or_create_twice_witness :
  let db' := (get_or_create_market rice_row empty_db).1 in
  markets db' <> markets empty_db
  /\ get_or_create_market rice_row db' = (db', Ok 1)
  /\ get_or_create_source no_int rice_row
       (get_or_create_source no_int rice_row empty_db).1
     = ((get_or_create_source no_int rice_row empty_db).1, Ok (Some 1)).
Proof.
  cbv zeta. split; [discriminate|]. split.
  - apply (proj1 (get_or_create_twice no_int rice_row empty_db _)).
    reflexivity.
  - apply (proj2 (proj2 (proj2
             (get_or_create_twice no_int rice_row empty_db _)))).
    reflexivity.
Defined.

Lemma upsert_then_upsert_updates_witness :
  let db1 := (upsert_price_observation keep_datetime rice_row 1 1 1
                (Some 1) empty_db).1 in
  let out := upsert_price_observation keep_datetime unsourced_row 1 1 1
               None db1 in
  length (price_observations db1) = 1%nat
  /\ out.2 = Ok false
  /\ length (price_observations out.1) = length (price_observations db1).
Proof.
  cbv zeta. split; [reflexivity|].
  destruct (upsert_then_upsert_updates keep_datetime rice_row unsourced_row
              1 1 1 (Some 1) None empty_db) as (Hres & _ & Hlen).
  - intros H. vm_compute in H. discriminate.
  - intros H. vm_compute in H. discriminate.
  - reflexivity.
  - reflexivity.
  - split; [exact Hres | exact Hlen].
Defined.

Lemma sync_dataframe_keeps_keys_distinct_witness :
  List.NoDup
    (complete_keys
       (sync_dataframe no_int keep_datetime
          [rice_row; unsourced_row; rice_row] empty_db).1).
Proof.
  apply (sync_dataframe_keeps_keys_distinct no_int keep_datetime).
  vm_compute. constructor.
Defined.

(** The sample row at a higher price and without its source. *)
Definition dearer_row : row := <["value" := PInt 60]> unsourced_row.

Lemma upsert_last_values_win_witness :
  let db2 := (upsert_price_observation keep_datetime dearer_row 1 1 1 None
                (upsert_price_observation keep_datetime rice_row 1 1 1
                   (Some 1) empty_db).1).1 in
  exists o,
    price_observations db2 = [o]
    /\ po_value o = PInt 60
    /\ po_source_id o = Some 1.
Proof.
  cbv zeta.
  destruct (upsert_last_values_win keep_datetime rice_row dearer_row 1 1 1
              (Some 1) None empty_db)
    as (o & Hpo & _ & Hv & _ & _ & _ & _ & _ & Hs & _).
  - intros H. vm_compute in H. discriminate.
  - intros H. vm_compute in H. discriminate.
  - reflexivity.
  - reflexivity.
  - reflexivity.
  - intros x [].
  - exists o. split; [exact Hpo|]. split; [exact Hv | exact Hs].
Defined.

End FEWSDatabaseMore.

(** ** More on the scripts and the client *)

Module SyncMore.

Import FEWSDatabase FEWSNETClient Calendar Sync FullSync.
Import FEWSDatabaseFacts FEWSNETClientFacts CalendarFacts SyncFacts.
Import FEWSDatabaseMore Samples.

(** Every entry of the import log was written before now. *)
Definition log_behind (db : database) : Prop :=
  forall e, In e (import_log db) -> il_import_date e < clock db.

Lemma latest_snoc_max (l : list import_entry) (x : import_entry) :
  (forall e, In e l -> il_import_date e < il_import_date x) ->
  latest (l ++ [x]) = Some x.
Proof.
  induction l as [|a l IH]; intros Hlt; cbn; [reflexivity|].
  rewrite IH by (intros e He; apply Hlt; by right).
  destruct (Z.ltb_spec (il_import_date a) (il_import_date x)) as [_|Hge];
    [reflexivity|].
  specialize (Hlt a (or_introl eq_refl)). lia.
Qed.

Lemma log_import_success_watermark (fetched : Z) (stats : gmap string Z)
    (start_date : option string) (d : string) (msg : option string)
    (db : database) :
  log_behind db -> d <> "" ->
  get_last_sync_date
    (log_import fetched stats start_date (Some d) "success" msg db)
  = Some d.
Proof.
  intros Hlog Hd. unfold get_last_sync_date, log_import. cbn [import_log
    with_import_log].
  rewrite List.filter_app. cbn [List.filter].
  change (is_success (ImportEntry _ _ _ _ _ _ _ "success" _)) with true.
  cbv iota. rewrite latest_snoc_max.
  - cbn [il_date_range_end]. apply String.eqb_neq in Hd. by rewrite Hd.
  - intros e He. apply filter_In in He as [He _]. cbn. by apply Hlog.
Qed.

Lemma log_import_behind (fetched : Z) (stats : gmap string Z)
    (start_date end_date : option string) (status : string)
    (msg : option string) (db : database) :
  log_behind db ->
  log_behind (log_import fetched stats start_date end_date status msg db).
Proof.
  intros Hlog e. unfold log_import. cbn. rewrite in_app_iff.
  intros [He|[<-|[]]]; [specialize (Hlog e He); lia | cbn; lia].
Qed.

(** X7. A successful import becomes the watermark: when every entry of
    the log is older than the clock, logging an import with status
    [success] and a non-empty end date makes [get_last_sync_date] return
    that end date, and the log stays older than the clock. *)
Theorem successful_import_sets_watermark (fetched : Z)
    (stats : gmap string Z) (start_date : option string) (d : string)
    (msg : option string) (db : database) :
  log_behind db -> d <> "" ->
  let db' := log_import fetched stats start_date (Some d) "success" msg db in
  get_last_sync_date db' = Some d /\ log_behind db'.
Proof.
  intros Hlog Hd. cbv zeta. split.
  - by apply log_import_success_watermark.
  - by apply log_import_behind.
Qed.

Lemma date_ltb_next (d d' : date) :
  valid d -> add_one_day d = Some d' -> date_ltb d d' = true.
Proof.
  destruct d as [y m dd]. unfold valid, add_one_day, date_ltb.
  cbn [year month day]. intros (Hy & Hm & Hd).
  destruct (dd <? days_in_month y m).
  - intros [= <-]. cbn [year month day].
    rewrite !Z.eqb_refl, !Z.ltb_irrefl.
    replace (dd <? dd + 1) with true by (symmetry; apply Z.ltb_lt; lia).
    reflexivity.
  - destruct (m <? 12).
    + intros [= <-]. cbn [year month day].
      rewrite !Z.eqb_refl, !Z.ltb_irrefl.
      replace (m <? m + 1) with true by (symmetry; apply Z.ltb_lt; lia).
      reflexivity.
    + destruct (y <? 9999); [|discriminate].
      intros [= <-]. cbn [year month day].
      replace (y <? y + 1) with true by (symmetry; apply Z.ltb_lt; lia).
      reflexivity.
Qed.

Section Script.

Variable int_of_str : string -> option Z.
Variable pd_to_datetime : pyval -> option pyval.
Variable pd_DataFrame : value -> string + list row.
Variable str_exn : client_exn -> string.
Variable strptime : string -> option date.
Variable answers : nat -> attempt_outcome.
Variable today : date.

Local Abbreviation start_date_of := (start_date_of strptime).
Local Abbreviation incremental_sync :=
  (incremental_sync int_of_str pd_to_datetime pd_DataFrame str_exn strptime
     answers today).
Local Abbreviation full_sync :=
  (full_sync int_of_str pd_to_datetime pd_DataFrame str_exn answers today).
Local Abbreviation sync_dataframe :=
  (sync_dataframe int_of_str pd_to_datetime).

Lemma sync_dataframe_behind (df : list row) (db : database) :
  log_behind db -> log_behind (sync_dataframe df db).1.
Proof.
  intros Hlog. unfold FEWSDatabase.sync_dataframe.
  change initial_stats with (stats_dict 0 0 0 0).
  destruct (sync_loop_shift int_of_str pd_to_datetime df db)
    as (db' & i & u & e & _ & _ & _ & _ & Hfold & _ & Hl & Hc & _).
  rewrite Hfold. cbn [fst]. intros x. rewrite Hl. intros Hx.
  specialize (Hlog x Hx). lia.
Qed.

(** With today as the watermark there is nothing to ask for. *)
Lemma up_to_date (db : database) (w : net) (tomorrow : date) :
  get_last_sync_date db = Some (strftime today) ->
  strptime (strftime today) = Some today ->
  valid today -> add_one_day today = Some tomorrow ->
  incremental_sync db w = Run db w Returned.
Proof.
  intros Hmark Hparse Hvalid Hnext.
  unfold Sync.incremental_sync, create_tables, Sync.start_date_of.
  rewrite Hmark, Hparse, Hnext. cbn [fmap option_fmap option_map].
  destruct (add_one_day_next _ _ Hvalid Hnext) as [_ Hvalid'].
  by rewrite strftime_ltb, (date_ltb_next _ _ Hvalid Hnext).
Qed.

Lemma strftime_not_empty (d : date) : strftime d <> "".
Proof. apply String.eqb_neq, strftime_nonempty. Qed.

(** What was logged by a call of [sync_dataframe] followed by
    [log_import]. *)
Lemma synced_entry (df : list row) (db : database)
    (start_date end_date : option string) :
  exists db2 stats e,
    sync_dataframe df db = (db2, stats)
    /\ import_log (log_import (len df) stats start_date end_date
                     "success" None db2)
       = (import_log db ++ [e])%list
    /\ il_status e = "success"
    /\ il_date_range_start e = start_date
    /\ il_date_range_end e = end_date
    /\ il_records_fetched e = len df
    /\ il_records_skipped e = 0
    /\ 0 <= il_records_inserted e /\ 0 <= il_records_updated e
    /\ il_records_inserted e + il_records_updated e <= il_records_fetched e
    /\ Z.of_nat (length (price_observations db2))
       = Z.of_nat (length (price_observations db)) + il_records_inserted e
    /\ (log_behind db -> log_behind db2).
Proof.
  unfold FEWSDatabase.sync_dataframe.
  change initial_stats with (stats_dict 0 0 0 0).
  destruct (sync_loop_shift int_of_str pd_to_datetime df db)
    as (db2 & i & u & e & Hi & Hu & He & Hsum & Hfold & _ & Hl & Hc & Hn).
  rewrite Hfold. rewrite !Z.add_0_l.
  destruct (stats_dict_lookup i u 0 e) as (Hli & Hlu & Hlk & _).
  eexists db2, (stats_dict i u 0 e), _.
  split; [reflexivity|]. unfold log_import. cbn. rewrite Hl, Hli, Hlu, Hlk.
  split; [reflexivity|]. cbn. unfold len.
  repeat split; try lia; try exact Hn.
  intros Hlog x Hx. specialize (Hlog x ltac:(by rewrite <- Hl)). lia.
Qed.


(** A run that returns has found the database up to date or has made
    today the watermark. *)
Lemma returned_run (db : database) (w : net) :
  log_behind db ->
  how (incremental_sync db w) = Returned ->
  (final_db (incremental_sync db w) = db
   /\ exists start, start_date_of (get_last_sync_date db) = Some start
        /\ String.ltb (strftime today) start = true)
  \/ get_last_sync_date (final_db (incremental_sync db w))
     = Some (strftime today).
Proof.
  intros Hlog. unfold Sync.incremental_sync, create_tables.
  destruct (start_date_of (get_last_sync_date db)) as [start|];
    [|discriminate].
  destruct (String.ltb (strftime today) start) eqn:Hlt.
  { intros _. left. split; [reflexivity|]. eauto. }
  destruct (test_connection answers w) as [w1 [|]]; [|discriminate].
  destruct (get_market_prices _ _ _ _ _ _ _ _ _ w1) as [w2 [x|df]];
    [discriminate|].
  destruct (df_empty df).
  - intros _. right. cbn [final_db].
    apply log_import_success_watermark;
      [exact Hlog | apply strftime_not_empty].
  - destruct (synced_entry df db (Some start) (Some (strftime today)))
      as (db2 & stats & e & -> & _ & _ & _ & _ & _ & _ & _ & _ & _ & _
          & Hbehind).
    intros _. right. cbn [final_db].
    apply log_import_success_watermark;
      [by apply Hbehind | apply strftime_not_empty].
Qed.

(** X8. A second incremental sync on the same day asks for nothing: when
    a run has returned, the run that follows it on that day returns at
    once, with no request sent and the database as the first run left it,
    whatever happened to the rows of the first.  The log is assumed older
    than the clock, today to have a next day, and [strptime] to read back
    what [strftime] writes. *)
Theorem incremental_sync_again_same_day (db : database) (w w' : net)
    (tomorrow : date) :
  log_behind db -> valid today ->
  strptime (strftime today) = Some today ->
  add_one_day today = Some tomorrow ->
  how (incremental_sync db w) = Returned ->
  incremental_sync (final_db (incremental_sync db w)) w'
  = Run (final_db (incremental_sync db w)) w' Returned.
Proof.
  intros Hlog Hvalid Hparse Hnext Hret.
  destruct (returned_run db w Hlog Hret)
    as [(-> & start & Hstart & Hlt) | Hmark].
  - unfold Sync.incremental_sync at 1. unfold create_tables.
    by rewrite Hstart, Hlt.
  - by apply (up_to_date _ _ tomorrow).
Qed.


(** X10. [full_sync] asks for everything, whatever the database holds,
    and what it leaves follows from what it got.  Its requests are the
    connection test and the request for prices from 2005-01-01 to today.
    When the connection test fails it stops there with exit code 1, the
    database as it was.  When the test passes the price request is sent,
    and then: a fetch that raises ends the run with exit code 1, the
    database as it was and, unlike [incremental_sync], nothing logged; an
    empty frame ends it normally, the database as it was; a frame with
    rows is synchronised into the database and one [success] entry for
    that window is logged after it, whose [records_fetched] is the number
    of rows and whose [records_inserted] is the number of observations
    added. *)
Theorem full_sync_fetches_everything (db : database) (w : net) :
  let run := full_sync db w in
  let conn := test_connection answers w in
  let fetch := get_market_prices answers pd_DataFrame str_exn "HT"
                 (Some "2005-01-01") (Some (strftime today)) None None None
                 conn.1 in
  (exists new,
     events (final_net run) = (events w ++ new)%list
     /\ forall url params, In (SessionGet url params) new ->
          (url = connection_url /\ params = connection_params)
          \/ (url = prices_url
              /\ params = window_params "2005-01-01" (strftime today)))
  /\ (conn.2 = false -> run = Run db conn.1 (SysExit 1))
  /\ (conn.2 = true ->
      final_net run = fetch.1
      /\ In (SessionGet prices_url
               (window_params "2005-01-01" (strftime today)))
           (events (final_net run))
      /\ (forall x, fetch.2 = inl x -> run = Run db fetch.1 (SysExit 1))
      /\ (forall df, fetch.2 = inr df -> df_empty df = true ->
            run = Run db fetch.1 Returned)
      /\ (forall df, fetch.2 = inr df -> df_empty df = false ->
            how run = Returned
            /\ final_db run
               = log_import (len df) (sync_dataframe df db).2
                   (Some "2005-01-01") (Some (strftime today))
                   "success" None (sync_dataframe df db).1
            /\ exists e,
                 import_log (final_db run) = (import_log db ++ [e])%list
                 /\ il_status e = "success"
                 /\ il_date_range_start e = Some "2005-01-01"
                 /\ il_date_range_end e = Some (strftime today)
                 /\ il_records_fetched e = len df
                 /\ il_records_inserted e + il_records_updated e
                    <= il_records_fetched e
                 /\ Z.of_nat (length (price_observations (final_db run)))
                    = Z.of_nat (length (price_observations db))
                      + il_records_inserted e)).
Proof.
  cbv zeta. unfold FullSync.full_sync, create_tables.
  destruct (test_connection_events answers w) as (new1 & Hev1 & Hall1).
  destruct (test_connection answers w) as [w1 ok]. cbn [fst snd] in *.
  assert (Hconn : forall url params, In (SessionGet url params) new1 ->
             url = connection_url /\ params = connection_params).
  { intros url params Hin. rewrite List.Forall_forall in Hall1.
    by destruct (Hall1 _ Hin) as [[= -> ->]|[? [=]]]. }
  destruct ok.
  2: { cbn [final_net how final_db].
       split; [|split; [reflexivity | discriminate]].
       exists new1. split; [exact Hev1|]. intros url params Hin.
       left. by apply Hconn. }
  destruct (get_market_prices_events pd_DataFrame str_exn answers
              "2005-01-01" (strftime today) w1 eq_refl
              (strftime_nonempty today))
    as (new2 & Hev2 & Hall2 & Hsent).
  assert (Hreq : forall url params,
             In (SessionGet url params) (new1 ++ new2) ->
             (url = connection_url /\ params = connection_params)
             \/ (url = prices_url
                 /\ params = window_params "2005-01-01" (strftime today))).
  { intros url params Hin. apply in_app_or in Hin as [Hin|Hin].
    - left. by apply Hconn.
    - right. rewrite List.Forall_forall in Hall2.
      by destruct (Hall2 _ Hin) as [[= -> ->]|[? [=]]]. }
  destruct (get_market_prices _ _ _ _ _ _ _ _ _ w1) as [w2 res];
    cbn [fst snd] in *.
  assert (Hnet : final_net
                   match res with
                   | inl _ => Run db w2 (SysExit 1)
                   | inr df =>
                       if df_empty df then Run db w2 Returned
                       else
                         let (db0, stats) := sync_dataframe df db in
                         Run (log_import (len df) stats (Some "2005-01-01")
                                (Some (strftime today)) "success" None db0)
                           w2 Returned
                   end = w2).
  { destruct res as [x|df]; [reflexivity|].
    destruct (df_empty df); [reflexivity|].
    by destruct (sync_dataframe df db). }
  rewrite Hnet. split; [|split; [discriminate|]].
  { exists (new1 ++ new2)%list. split; [|exact Hreq].
    by rewrite Hev2, Hev1, app_assoc. }
  intros _. split; [reflexivity|]. split.
  { rewrite Hev2. apply in_or_app. by right. }
  split; [by intros x ->|]. split; [by intros df -> ->|].
  intros df -> ->.
  destruct (synced_entry df db (Some "2005-01-01") (Some (strftime today)))
    as (db2 & stats & e & Hsync & Hlog & Hst & Hs & He & Hf & Hk & Hi & Hu
        & Hle & Hn & _).
  rewrite Hsync. cbn [fst snd final_db how].
  split; [reflexivity|]. split; [reflexivity|].
  exists e. by repeat split.
Qed.

(** X11. After a full sync that has logged its import, an incremental
    sync on the same day asks for nothing: it returns at once, with no
    request sent and the database as it was.  The log is assumed older
    than the clock, today to have a next day, and [strptime] to read back
    what [strftime] writes. *)
Theorem incremental_sync_after_full_sync (db : database) (w w' : net)
    (tomorrow : date) :
  log_behind db -> valid today ->
  strptime (strftime today) = Some today ->
  add_one_day today = Some tomorrow ->
  import_log (final_db (full_sync db w)) <> import_log db ->
  incremental_sync (final_db (full_sync db w)) w'
  = Run (final_db (full_sync db w)) w' Returned.
Proof.
  intros Hlog Hvalid Hparse Hnext Hlogged.
  apply (up_to_date _ _ tomorrow); trivial.
  revert Hlogged. unfold FullSync.full_sync, create_tables.
  destruct (test_connection answers w) as [w1 [|]]; [|done].
  destruct (get_market_prices _ _ _ _ _ _ _ _ _ w1) as [w2 [x|df]];
    [done|].
  destruct (df_empty df); [done|].
  destruct (synced_entry df db (Some "2005-01-01") (Some (strftime today)))
    as (db2 & stats & e & -> & _ & _ & _ & _ & _ & _ & _ & _ & _ & _
        & Hbehind).
  intros _. cbn [final_db].
  apply log_import_success_watermark;
    [by apply Hbehind | apply strftime_not_empty].
Qed.

End Script.

(** *** The client *)

(** The seconds slept in a list of events. *)
Fixpoint total_sleep (l : list event) : Z :=
  match l with
  | [] => 0
  | Sleep s :: l' => s + total_sleep l'
  | SessionGet _ _ :: l' => total_sleep l'
  end.

Section Client.

Variable answers : nat -> attempt_outcome.

(** X12. The pauses of [_make_request] add up to thirty seconds at most
    (ten, then twenty, after two timeouts); there is none exactly when
    the first call of [session.get] settles the matter; and the function
    never pauses after its last call. *)
Theorem make_request_pauses_are_bounded (endpoint : string) (params : row)
    (format : string) (w : net) :
  let url := BASE_URL +:+ "/" +:+ endpoint +:+ "/" in
  let sent := <["format" := PStr format]> params in
  let out := _make_request answers endpoint params format w in
  exists new,
    events out.1 = (events w ++ new)%list
    /\ 0 <= total_sleep new <= 30
    /\ (total_sleep new = 0 <-> calls out.1 = S (calls w))
    /\ last new = Some (SessionGet url sent).
Proof.
  cbv zeta. unfold _make_request.
  change (range MAX_RETRIES) with [0; 1; 2].
  set (url := BASE_URL +:+ "/" +:+ endpoint +:+ "/").
  set (sent := <["format" := PStr format]> params).
  assert (C0 : (0 <? MAX_RETRIES - 1) = true) by reflexivity.
  assert (C1 : (1 <? MAX_RETRIES - 1) = true) by reflexivity.
  assert (C2 : (2 <? MAX_RETRIES - 1) = false) by reflexivity.
  cbn [attempts]. rewrite C0.
  destruct (answers (calls w)) as [r0| | |];
    cbn [attempts session_get time_sleep calls events]; rewrite ?C1;
    try destruct (answers (S (calls w))) as [r1| | |];
    cbn [attempts session_get time_sleep calls events]; rewrite ?C2;
    try destruct (answers (S (S (calls w)))) as [r2| | |];
    cbn [fst session_get time_sleep calls events];
    rewrite <- ?app_assoc;
    (eexists; split; [reflexivity|]);
    cbn [app total_sleep last];
    (split; [lia|]); (split; [split; intros H; lia | reflexivity]).
Qed.

(** X13. [test_connection] never raises, and answers [True] exactly when
    one of the first three calls of [session.get] gets a response, every
    call before it having failed with a timeout or another request
    exception. *)
Theorem test_connection_passes_iff (w : net) :
  (test_connection answers w).2 = true
  <-> exists n : nat,
        (n < 3)%nat
        /\ (exists r, answers (calls w + n)%nat = Responded r)
        /\ forall i, (i < n)%nat -> retryable (answers (calls w + i)%nat).
Proof.
  unfold test_connection, _make_request.
  change (range MAX_RETRIES) with [0; 1; 2].
  assert (C0 : (0 <? MAX_RETRIES - 1) = true) by reflexivity.
  assert (C1 : (1 <? MAX_RETRIES - 1) = true) by reflexivity.
  assert (C2 : (2 <? MAX_RETRIES - 1) = false) by reflexivity.
  assert (H0 : (calls w + 0)%nat = calls w) by lia.
  assert (H1 : (calls w + 1)%nat = S (calls w)) by lia.
  assert (H2 : (calls w + 2)%nat = S (S (calls w))) by lia.
  cbn [attempts]. rewrite C0.
  destruct (answers (calls w)) as [r0| | |] eqn:A0;
    cbn [attempts session_get time_sleep calls events]; rewrite ?C1;
    try destruct (answers (S (calls w))) as [r1| | |] eqn:A1;
    cbn [attempts session_get time_sleep calls events]; rewrite ?C2;
    try destruct (answers (S (S (calls w)))) as [r2| | |] eqn:A2;
    cbn [snd].
  all: split;
    [ intros H; try discriminate H;
      first
        [ solve [exists 0%nat; rewrite H0, A0;
                 split; [lia|]; split; [eauto|]; intros i Hi; lia]
        | solve [exists 1%nat; rewrite H1, A1;
                 split; [lia|]; split; [eauto|]; intros i Hi;
                 assert (i = 0%nat) as -> by lia;
                 rewrite H0, A0; unfold retryable; tauto]
        | solve [exists 2%nat; rewrite H2, A2;
                 split; [lia|]; split; [eauto|]; intros i Hi;
                 assert (i = 0%nat \/ i = 1%nat) as [-> | ->] by lia;
                 rewrite ?H0, ?H1, ?A0, ?A1; unfold retryable; tauto] ]
    | intros (n & Hn & [r Hr] & Hall); try reflexivity; exfalso;
      assert (Hcase : n = 0%nat \/ n = 1%nat \/ n = 2%nat) by lia;
      destruct Hcase as [-> | [-> | ->]];
      rewrite ?H0, ?H1, ?H2, ?A0, ?A1, ?A2 in Hr; try discriminate Hr;
      try (assert (R0 := Hall 0%nat ltac:(lia));
           rewrite H0, A0 in R0; destruct R0 as [R0|R0]; discriminate R0);
      try (assert (R1 := Hall 1%nat ltac:(lia));
           rewrite H1, A1 in R1; destruct R1 as [R1|R1]; discriminate R1) ].
Qed.

End Client.

(** *** The theorems at work on the sample data *)

Lemma synced_db_behind : log_behind synced_db.
Proof. intros e [<-|[]]. cbn. lia. Qed.

Lemma empty_db_behind : log_behind empty_db.
Proof. intros e []. Qed.

Lemma successful_import_sets_watermark_witness :
  get_last_sync_date synced_db = Some "2024-03-10"
  /\ get_last_sync_date
       (log_import 5 ∅ (Some "2024-03-11") (Some "2024-04-01") "success"
          None synced_db)
     = Some "2024-04-01".
Proof.
  split; [reflexivity|].
  apply (successful_import_sets_watermark 5 ∅ (Some "2024-03-11")
           "2024-04-01" None synced_db synced_db_behind).
  discriminate.
Defined.

(** A remote side whose only row has no market: the row fails, the sync
    is logged as a success all the same. *)
Definition marketless (n : nat) : attempt_outcome :=
  Responded (Response [marketless_row] "").

Lemma incremental_sync_again_same_day_witness :
  let w := Net 0 [] in
  let sync := incremental_sync no_int keep_datetime frame_of exn_text
                iso_strptime marketless (Date 2024 4 1) in
  let run := sync synced_db w in
  price_observations (final_db run) = []
  /\ get_last_sync_date (final_db run) = Some "2024-04-01"
  /\ sync (final_db run) (final_net run)
     = Run (final_db run) (final_net run) Returned.
Proof.
  cbv zeta. split; [reflexivity|]. split; [reflexivity|].
  apply (incremental_sync_again_same_day no_int keep_datetime frame_of
           exn_text iso_strptime marketless (Date 2024 4 1) synced_db
           (Net 0 []) _ (Date 2024 4 2) synced_db_behind).
  - valid_date.
  - reflexivity.
  - reflexivity.
  - reflexivity.
Defined.

Lemma incremental_sync_after_full_sync_witness :
  let w := Net 0 [] in
  let full := full_sync no_int keep_datetime frame_of exn_text steady
                (Date 2024 4 1) empty_db w in
  length (price_observations (final_db full)) = 1%nat
  /\ incremental_sync no_int keep_datetime frame_of exn_text iso_strptime
       steady (Date 2024 4 1) (final_db full) (final_net full)
     = Run (final_db full) (final_net full) Returned.
Proof.
  cbv zeta. split; [reflexivity|].
  apply (incremental_sync_after_full_sync no_int keep_datetime frame_of
           exn_text iso_strptime steady (Date 2024 4 1) empty_db
           (Net 0 []) _ (Date 2024 4 2) empty_db_behind).
  - valid_date.
  - reflexivity.
  - reflexivity.
  - intros H. vm_compute in H. discriminate.
Defined.

Lemma full_sync_fetches_everything_witness :
  let w := Net 0 [] in
  let run := full_sync no_int keep_datetime frame_of exn_text steady
               (Date 2024 4 1) empty_db w in
  let down := full_sync no_int keep_datetime frame_of exn_text
                (fun _ => Crashed) (Date 2024 4 1) empty_db w in
  (how run = Returned
   /\ In (SessionGet prices_url (window_params "2005-01-01" "2024-04-01"))
        (events (final_net run))
   /\ exists e, import_log (final_db run) = [e]
                /\ il_status e = "success"
                /\ il_records_fetched e = 1)
  /\ down = Run empty_db (test_connection (fun _ => Crashed) w).1
              (SysExit 1).
Proof.
  cbv zeta. split.
  - destruct (full_sync_fetches_everything no_int keep_datetime frame_of
                exn_text steady (Date 2024 4 1) empty_db (Net 0 []))
      as (_ & _ & Hup).
    destruct (Hup eq_refl) as (_ & Hsent & _ & _ & Hrows).
    destruct (Hrows [rice_row] eq_refl eq_refl)
      as (Hhow & _ & e & Hlog & Hst & _ & _ & Hf & _).
    split; [exact Hhow|]. split; [exact Hsent|].
    exists e. by repeat split.
  - destruct (full_sync_fetches_everything no_int keep_datetime frame_of
                exn_text (fun _ => Crashed) (Date 2024 4 1) empty_db
                (Net 0 []))
      as (_ & Hdown & _).
    exact (Hdown eq_refl).
Defined.

End SyncMore.
